(** * The recession barometer of [enhanced.py] and the collector of [main.py]

    A shallow embedding of the scoring pipeline of the repository
    (class [RecessionIndexCalculator] and [RecessionDashboard.collect_and_analyze]
    of [src/enhanced.py], and the store step of
    [TwoSumDataCollector.collect_data] of [src/main.py]), followed by the
    properties the specification states about it.

    Conventions of the embedding:
    - a Python [int] is a [Z]; a Python [float] is the rational [Q] that
      is its value, so equalities between computed numbers are stated with
      [==]. The trend analyzer, whose labels turn on the last bit of a
      mean, computes in binary64: every operation is the exact one
      followed by the rounding [Py.float]. The scorer computes on the exact
      values; what is proved of it does not depend on a rounding.
      Infinities and NaN are outside the model;
    - a [dict] keyed by strings is a [gmap string _]; a list is a [list];
    - a dict read from JSON whose keys may be missing has [option] fields
      where the code reads them with [.get];
    - the clock is read once per cycle: [datetime.datetime.now()] is an
      argument [now], handed down to the functions that read it (a cycle
      that runs over midnight is outside the model);
    - of the [logger] calls only those of [save_history] and the opening
      line of [collect_and_analyze] are kept; the lines that the calculation
      functions log do not influence any value and are left out. *)

From Stdlib Require Import ZArith QArith Qround Qabs Qminmax Lqa Lia DecimalString.
From stdpp Require Import gmap strings list fin_maps sorting.

(* ===================================================================== *)
(** * Python built-ins *)
(* ===================================================================== *)

Module Py.

Local Open Scope Q_scope.

(** [x < y] on floats, as a boolean. *)
Definition Qltb (x y : Q) : bool := negb (Qle_bool y x).

(** [min(a, b)]: the first argument unless the second is strictly smaller. *)
Definition min (a b : Q) : Q := if Qltb b a then b else a.

(** [max(a, b)]: the first argument unless the second is strictly larger. *)
Definition max (a b : Q) : Q := if Qltb a b then b else a.

(** [abs(x)]. *)
Definition abs (x : Q) : Q := Qabs x.

(** [sum(l)]: starts from [0] and adds from the left. *)
Definition sum (l : list Q) : Q := fold_left Qplus l 0.

(** Rounding to the nearest integer, ties to the even one. *)
Definition round_half_even (x : Q) : Z :=
  let f := Qfloor x in
  let r := x - inject_Z f in
  if Qltb r (1 # 2) then f
  else if Qltb (1 # 2) r then (f + 1)%Z
  else if Z.even f then f else (f + 1)%Z.

(** [round(x, ndigits)] for [ndigits >= 0], on the exact value. (A float
    written as a decimal tie, such as 0.015, is rarely the tie itself; the
    examples of this file stay away from ties.) *)
Definition round (x : Q) (ndigits : nat) : Q :=
  let scale := inject_Z (10 ^ Z.of_nat ndigits) in
  inject_Z (round_half_even (x * scale)) / scale.

(** ** Binary64 *)

(** [2^k] for an integer [k]. *)
Definition pow2 (k : Z) : Q := Qpower 2 k.

(** The exponent of a positive [x]: the [e] with [2^e <= x < 2^(e+1)]. *)
Definition ilog2 (x : Q) : Z :=
  let e := (Z.log2 (Qnum x) - Z.log2 (Zpos (Qden x)))%Z in
  if Qle_bool (pow2 e) x then e else (e - 1)%Z.

(** The double nearest to [x], ties to the even significand: [x] is
    rounded to a multiple of [2^p], where [p] leaves 53 bits to the
    significand or, for the subnormal numbers, is -1074. It is the value of
    a float literal, of a number read from JSON and of [float(x)], and a
    double is its own nearest double. A result beyond the largest double
    would be an infinity and is outside the model. *)
Definition float (x : Q) : Q :=
  let x := Qred x in
  if (Qnum x =? 0)%Z then 0
  else
    let p := Z.max (ilog2 (Qabs x) - 52) (-1074) in
    Qred (inject_Z (round_half_even (x / pow2 p)) * pow2 p).

(** [a - b], [a + b] and [a / b] on floats: the exact result, rounded. *)
Definition float_sub (a b : Q) : Q := float (a - b).

Definition float_add (a b : Q) : Q := float (a + b).

Definition float_div (a b : Q) : Q := float (a / b).

(** [sum(l)] on floats: starts from [0] and adds from the left, rounding
    each partial sum (CPython before 3.12; from 3.12 on [sum] also carries
    a compensation of the rounding errors). *)
Definition float_sum (l : list Q) : Q := fold_left float_add l 0.

(** [l[start:]]: a negative [start] counts from the end, and the bounds
    are clamped to the list. *)
Definition slice_from {A} (l : list A) (start : Z) : list A :=
  let n := Z.of_nat (length l) in
  let s := if (start <? 0)%Z then Z.max (start + n) 0 else Z.min start n in
  drop (Z.to_nat s) l.

(** [sorted(keys)] on strings: by code point, which on UTF-8 bytes is the
    byte-wise lexicographic order. *)
Definition sorted (l : list string) : list string := merge_sort String.le l.

(** [range(a, b)]. *)
Definition range (a b : nat) : list nat := seq a (b - a).

(** [str(n)] of an integer: its decimal numeral. *)
Definition str_int (n : Z) : string := NilZero.string_of_int (Z.to_int n).

(** [s.split(sep)] for a separator of one character. *)
Fixpoint split_go (sep : Ascii.ascii) (cur : string) (s : string) : list string :=
  match s with
  | EmptyString => [String.rev cur]
  | String c s' =>
      if decide (c = sep) then String.rev cur :: split_go sep EmptyString s'
      else split_go sep (String c cur) s'
  end.

Definition split (sep : Ascii.ascii) (s : string) : list string :=
  split_go sep EmptyString s.

(** The value of a decimal digit, [None] for another character. *)
Definition digit_value (c : Ascii.ascii) : option Z :=
  let n := Z.of_N (Ascii.N_of_ascii c) in
  if ((48 <=? n) && (n <=? 57))%Z then Some (n - 48)%Z else None.

(** [int(s)] for a string of decimal digits. A string with another
    character is [None]: of those Python accepts some (a sign, blanks,
    underscores) and refuses the others with a ValueError; the program
    applies [int] to none of them. *)
Fixpoint int_go (acc : Z) (s : string) : option Z :=
  match s with
  | EmptyString => Some acc
  | String c s' =>
      match digit_value c with
      | Some d => int_go (10 * acc + d)%Z s'
      | None => None
      end
  end.

Definition int (s : string) : option Z :=
  match s with
  | EmptyString => None
  | _ => int_go 0%Z s
  end.

End Py.

(* ===================================================================== *)
(** * [datetime] *)
(* ===================================================================== *)

Module Datetime.

Record datetime := {
  year : Z; month : Z; day : Z;
  hour : Z; minute : Z; second : Z; microsecond : Z
}.

Definition digit (n : Z) : string :=
  String (Ascii.ascii_of_N (48 + Z.to_N (n mod 10))) EmptyString.

(** A decimal numeral padded with zeros to [width] digits. *)
Fixpoint pad (width : nat) (n : Z) : string :=
  match width with
  | O => ""
  | S w => pad w (n / 10) +:+ digit n
  end.

(** [now.strftime('%Y-%m-%d')]. *)
Definition strftime_ymd (now : datetime) : string :=
  pad 4 (year now) +:+ "-" +:+ pad 2 (month now) +:+ "-" +:+ pad 2 (day now).

(** [now.strftime('%H:%M:%S')]. *)
Definition strftime_hms (now : datetime) : string :=
  pad 2 (hour now) +:+ ":" +:+ pad 2 (minute now) +:+ ":" +:+ pad 2 (second now).

(** [now.isoformat()]. *)
Definition isoformat (now : datetime) : string :=
  strftime_ymd now +:+ "T" +:+ strftime_hms now +:+
  (if (microsecond now =? 0)%Z then "" else "." +:+ pad 6 (microsecond now)).

Definition is_leap (y : Z) : bool :=
  ((y mod 4 =? 0) && (negb (y mod 100 =? 0) || (y mod 400 =? 0)))%Z.

Definition days_in_month (y m : Z) : Z :=
  if (m =? 2)%Z then (if is_leap y then 29 else 28)%Z
  else if ((m =? 4) || (m =? 6) || (m =? 9) || (m =? 11))%Z then 30%Z
  else 31%Z.

(** [now - datetime.timedelta(days=1)], for a date after 0001-01-01. *)
Definition minus_one_day (now : datetime) : datetime :=
  if (1 <? day now)%Z then
    {| year := year now; month := month now; day := day now - 1;
       hour := hour now; minute := minute now; second := second now;
       microsecond := microsecond now |}
  else if (1 <? month now)%Z then
    {| year := year now; month := month now - 1;
       day := days_in_month (year now) (month now - 1);
       hour := hour now; minute := minute now; second := second now;
       microsecond := microsecond now |}
  else
    {| year := year now - 1; month := 12; day := 31;
       hour := hour now; minute := minute now; second := second now;
       microsecond := microsecond now |}.

(** [now.strftime('%H:%M')]. *)
Definition strftime_hm (now : datetime) : string :=
  pad 2 (hour now) +:+ ":" +:+ pad 2 (minute now).

End Datetime.

(* ===================================================================== *)
(** * [src/enhanced.py] *)
(* ===================================================================== *)

Module Enhanced.

Import Datetime.
Local Open Scope Q_scope.

(** ** Data *)

(** A fetched problem, an element of [problem_data[difficulty]]; of its
    keys the calculator reads these four. *)
Record Problem := {
  slug : string;
  name : option string;
  total_submission : Z;
  weight : Q
}.

(** [problem_data]: the items of the dict in insertion order. The entry
    under ['timestamp'] holds a string, not a list of problems; the loops
    below skip that key, and it is kept here with an empty list. *)
Abbreviation ProblemData := (list (string * list Problem)).

(** An element of [daily_indices[date]['problems']]. *)
Record StoredProblem := {
  sp_slug : option string;
  sp_name : option string;
  sp_total_submission : option Z
}.

(** A value of [daily_indices]: the record of one day. *)
Record DailyRecord := {
  dr_index : Q;
  dr_probability : Q;
  dr_problems : option (list StoredProblem)
}.

#[global] Instance DailyRecord_inhabited : Inhabited DailyRecord :=
  populate {| dr_index := 0; dr_probability := 0; dr_problems := None |}.

(** A value of the [details] dict: the entry of a problem, under its slug,
    or the score of a difficulty, under ['<difficulty>_score']. *)
Inductive DetailValue :=
| ProblemDetail (increment : Z) (score weight difficulty_weight : Q)
| DifficultyScore (score : Q).

(** The dict returned by [calculate_weighted_index]. *)
Record WeightedResult := {
  wr_index : Q;
  wr_raw_score : Q;
  wr_details : gmap string DetailValue;
  wr_timestamp : option string
}.

(** The dict returned by [calculate_acceleration]. *)
Record AccelerationData := {
  acceleration : Q;
  trend : string;
  severity : string
}.

(** The dict returned by [calculate_recession_probability]. *)
Record RiskResult := {
  rr_probability : Q;
  rr_level : string;
  rr_conclusion : string;
  rr_action : string;
  rr_base_index : Q;
  rr_seasonal_factor : Q;
  rr_season_desc : string;
  rr_acceleration : option AccelerationData;
  rr_details : gmap string DetailValue;
  rr_timestamp : string
}.

(** ** [RecessionIndexCalculator.calculate_weighted_index] *)

(** The dict literal [{'hard': 1.5, 'medium': 1.2, 'easy': 1.0}] read with
    [.get(difficulty, 1.0)]. *)
Definition difficulty_weight_of (difficulty : string) : Q :=
  if decide (difficulty = "hard") then 3 # 2
  else if decide (difficulty = "medium") then 6 # 5
  else if decide (difficulty = "easy") then 1
  else 1.

(** The inner loop over [yesterday_data['problems']]: the total of the
    first entry with the slug, [0] when [total_submission] is missing. *)
Fixpoint scan_yesterday (ps : list StoredProblem) (s : string) : Z :=
  match ps with
  | [] => 0%Z
  | p :: ps' =>
      if decide (sp_slug p = Some s)
      then default 0%Z (sp_total_submission p)
      else scan_yesterday ps' s
  end.

(** [yesterday_total] after the guarded loop. *)
Definition yesterday_total_of (yesterday_data : option DailyRecord) (s : string) : Z :=
  match yesterday_data with
  | Some rec =>
      match dr_problems rec with
      | Some ps => scan_yesterday ps s
      | None => 0%Z
      end
  | None => 0%Z
  end.

(** [increment] of one problem. *)
Definition increment_of (yesterday_data : option DailyRecord) (p : Problem) : Z :=
  let yesterday_total := yesterday_total_of yesterday_data (slug p) in
  if (0 <? yesterday_total)%Z
  then (total_submission p - yesterday_total)%Z
  else (total_submission p / 100)%Z.


(** One turn of [for problem in problems], on the pair
    [(difficulty_score, details)]. *)
Definition problem_step (yesterday_data : option DailyRecord) (difficulty_weight : Q)
    (acc : Q * gmap string DetailValue) (p : Problem) : Q * gmap string DetailValue :=
  let increment := increment_of yesterday_data p in
  let problem_score := inject_Z increment * weight p * difficulty_weight in
  (acc.1 + problem_score,
   <[slug p := ProblemDetail increment problem_score (weight p) difficulty_weight]> acc.2).

(** One turn of [for difficulty, problems in problem_data.items()], on the
    pair [(total_score, details)]. *)
Definition difficulty_step (yesterday_data : option DailyRecord)
    (acc : Q * gmap string DetailValue) (item : string * list Problem)
    : Q * gmap string DetailValue :=
  let '(difficulty, problems) := item in
  if decide (difficulty = "timestamp") then acc
  else
    let difficulty_weight := difficulty_weight_of difficulty in
    let '(difficulty_score, details) :=
      fold_left (problem_step yesterday_data difficulty_weight) problems (0, acc.2) in
    (acc.1 + difficulty_score,
     <[difficulty +:+ "_score" := DifficultyScore difficulty_score]> details).

Definition calculate_weighted_index (daily_indices : gmap string DailyRecord)
    (now : datetime) (problem_data : ProblemData) : WeightedResult :=
  match problem_data with
  | [] => {| wr_index := 0; wr_raw_score := 0; wr_details := ∅; wr_timestamp := None |}
  | _ =>
      let yesterday := strftime_ymd (minus_one_day now) in
      let yesterday_data := daily_indices !! yesterday in
      let '(total_score, details) :=
        fold_left (difficulty_step yesterday_data) problem_data (0, ∅) in
      let normalized_score := total_score / 1000000 in
      {| wr_index := normalized_score;
         wr_raw_score := total_score;
         wr_details := details;
         wr_timestamp := Some (isoformat now) |}
  end.

(** ** [RecessionIndexCalculator.analyze_seasonal_pattern] *)

Definition hiring_seasons : list (string * list Z) :=
  [("spring", [3; 4]%Z); ("autumn", [9; 10]%Z)].

Definition analyze_seasonal_pattern (now : datetime) : Q * string :=
  let current_month := month now in
  let in_hiring_season :=
    existsb (fun months => bool_decide (current_month ∈ months)) hiring_seasons.*2 in
  if in_hiring_season then (13 # 10, "求职旺季") else (8 # 10, "求职淡季").

(** ** [RecessionIndexCalculator.calculate_acceleration] *)

(** The loop [for i in range(1, len(xs)): out.append(xs[i] - xs[i-1])],
    on floats. *)
Definition derivative (xs : list Q) : list Q :=
  (fun i => Py.float_sub (nth i xs 0) (nth (i - 1) xs 0)) <$> Py.range 1 (length xs).

(** The values of [self.daily_indices[d]['index']] are doubles: a recorded
    number is read as the double nearest to it, which is the number itself
    when it is a double (an integer, such as the 0 of an empty input, is
    one below [2^53]). The differences, the sum and the division are those
    of binary64, and [0.5], [0.1] and [-0.1] are the doubles of these
    literals. *)
Definition calculate_acceleration (daily_indices : gmap string DailyRecord)
    (days : Z) : option AccelerationData :=
  if (Z.of_nat (size daily_indices) <? days)%Z then None
  else
    let dates := Py.slice_from (Py.sorted (map_to_list daily_indices).*1) (- days) in
    let indices := (fun d => Py.float (dr_index (daily_indices !!! d))) <$> dates in
    let first_derivative := derivative indices in
    let second_derivative := derivative first_derivative in
    let avg_acceleration :=
      match second_derivative with
      | [] => 0
      | _ => Py.float_div (Py.float_sum second_derivative)
                          (inject_Z (Z.of_nat (length second_derivative)))
      end in
    let '(trend, severity) :=
      if Py.Qltb (Py.float (1 # 2)) avg_acceleration then ("加速上升", "严重")
      else if Py.Qltb (Py.float (1 # 10)) avg_acceleration then ("缓慢上升", "关注")
      else if Py.Qltb (- Py.float (1 # 10)) avg_acceleration then ("平稳", "正常")
      else ("下降", "好转") in
    Some {| acceleration := avg_acceleration; trend := trend; severity := severity |}.

(** The default of the parameter [days]. *)
Definition default_days : Z := 14.

(** ** [RecessionIndexCalculator.calculate_recession_probability] *)

(** Lines 574 to 596: the pair [(original_score, score)]. *)
Definition recession_score (daily_indices : gmap string DailyRecord)
    (base_index : Q) (acceleration_data : option AccelerationData)
    (seasonal_factor : Q) : Q * Q :=
  let score := 0 in
  let score := score + Py.min (base_index * 40) 40 in
  let score :=
    match acceleration_data with
    | Some a =>
        let acc_score := Py.min (Py.max (Py.abs (acceleration a) * 20) 0) 30 in
        if Py.Qltb 0 (acceleration a) then score + acc_score else score
    | None => score
    end in
  let score :=
    if (0 <? size daily_indices)%nat then
      let indices := dr_index <$> (map_to_list daily_indices).*2 in
      match indices with
      | [] => score
      | _ =>
          let avg_index := Py.sum indices / inject_Z (Z.of_nat (length indices)) in
          if Py.Qltb 0 avg_index then
            let ratio := base_index / avg_index in
            score + Py.min (ratio * 20) 20
          else score
      end
    else score in
  let original_score := score in
  let score := score * seasonal_factor in
  let score := Py.min (Py.max score 0) 100 in
  (original_score, score).

(** Lines 600 to 619: [(level, conclusion, action)]. *)
Definition risk_level (score : Q) : string * string * string :=
  if Py.Qltb 80 score then
    ("高危", "裁员风险极高，市场异常活跃", "立即关注市场动态，做好应急预案")
  else if Py.Qltb 60 score then
    ("预警", "裁员风险较高，需要警惕", "保持关注，适当调整招聘计划")
  else if Py.Qltb 40 score then
    ("关注", "中等风险，正常波动范围内", "定期监控，维持现状")
  else if Py.Qltb 20 score then
    ("低风险", "市场相对平稳", "正常运营，可适当招聘")
  else
    ("安全", "市场冷清，风险较低", "适合储备人才，等待时机").

Definition calculate_recession_probability (daily_indices : gmap string DailyRecord)
    (now : datetime) (problem_data : ProblemData) : RiskResult :=
  let weighted_result := calculate_weighted_index daily_indices now problem_data in
  let base_index := wr_index weighted_result in
  let '(seasonal_factor, season_desc) := analyze_seasonal_pattern now in
  let acceleration_data := calculate_acceleration daily_indices default_days in
  let '(original_score, score) :=
    recession_score daily_indices base_index acceleration_data seasonal_factor in
  let '(level, conclusion, action) := risk_level score in
  {| rr_probability := Py.round score 1;
     rr_level := level;
     rr_conclusion := conclusion;
     rr_action := action;
     rr_base_index := Py.round base_index 2;
     rr_seasonal_factor := seasonal_factor;
     rr_season_desc := season_desc;
     rr_acceleration := acceleration_data;
     rr_details := wr_details weighted_result;
     rr_timestamp := isoformat now |}.

(** ** The world of a run: memory, disk and log *)

Inductive Level := DEBUG | INFO | WARNING | ERROR.

Record LogRecord := { lr_level : Level; lr_message : string }.

(** What the operating system answers to the write of the history file:
    either the whole file is written, or an exception with text [e] is
    raised and the disk is left holding [left_on_disk] (the former file,
    a truncated one, or none). *)
Inductive WriteOutcome :=
| WriteOk
| WriteError (e : string) (left_on_disk : option (gmap string DailyRecord)).

Record World := {
  daily_indices : gmap string DailyRecord;  (* [self.calculator.daily_indices] *)
  disk : option (gmap string DailyRecord);  (* [recession_history.json] *)
  log : list LogRecord                      (* what [logger] has received *)
}.

(** How a Python call ends. *)
Inductive Outcome (A : Type) :=
| Returned (a : A)
| Raised (e : string).
Arguments Returned {A} a.
Arguments Raised {A} e.

Definition history_file : string := "recession_history.json".

(** ** [RecessionIndexCalculator.save_history] *)

Definition save_history (data : gmap string DailyRecord) (io : WriteOutcome)
    (w : World) : Outcome unit * World :=
  match io with
  | WriteOk =>
      (Returned tt,
       {| daily_indices := daily_indices w;
          disk := Some data;
          log := log w ++ [{| lr_level := INFO;
                              lr_message := "历史数据已保存: " +:+ history_file |}] |})
  | WriteError e left_on_disk =>
      (Returned tt,
       {| daily_indices := daily_indices w;
          disk := left_on_disk;
          log := log w ++ [{| lr_level := ERROR;
                              lr_message := "保存历史数据失败: " +:+ e |}] |})
  end.

(** ** [RecessionDashboard.collect_and_analyze] *)

(** The dict appended to [daily_indices[today]['problems']] for [p]. *)
Definition stored_problem (p : Problem) : StoredProblem :=
  {| sp_slug := Some (slug p);
     sp_name := Some (default (slug p) (name p));
     sp_total_submission := Some (total_submission p) |}.

(** [daily_indices[today]['problems'].append(x)]: the list inside the
    record stored under [today] grows in place. *)
Definition append_problem (today : string) (x : StoredProblem)
    (m : gmap string DailyRecord) : gmap string DailyRecord :=
  alter (fun rec => {| dr_index := dr_index rec;
                       dr_probability := dr_probability rec;
                       dr_problems := (fun l => l ++ [x]) <$> dr_problems rec |})
        today m.

(** One turn of [for difficulty, problems in problem_data.items()]. *)
Definition store_step (today : string) (m : gmap string DailyRecord)
    (item : string * list Problem) : gmap string DailyRecord :=
  let '(difficulty, problems) := item in
  if decide (difficulty <> "timestamp")
  then fold_left (fun m p => append_problem today (stored_problem p) m) problems m
  else m.

(** [problem_data] is what [self.collector.collect_all_problems()]
    returned, [io] what the disk will answer. *)
Definition collect_and_analyze (problem_data : ProblemData) (now : datetime)
    (io : WriteOutcome) (w : World)
    : Outcome (RiskResult * ProblemData) * World :=
  let w := {| daily_indices := daily_indices w; disk := disk w;
              log := log w ++ [{| lr_level := INFO;
                                  lr_message := "开始数据采集和分析流程" |}] |} in
  let result := calculate_recession_probability (daily_indices w) now problem_data in
  let today := strftime_ymd now in
  let m := <[today := {| dr_index := rr_base_index result;
                         dr_probability := rr_probability result;
                         dr_problems := Some [] |}]> (daily_indices w) in
  let m := fold_left (store_step today) problem_data m in
  let w := {| daily_indices := m; disk := disk w; log := log w |} in
  match save_history (daily_indices w) io w with
  | (Returned _, w) => (Returned (result, problem_data), w)
  | (Raised e, w) => (Raised e, w)
  end.

(** ** [RecessionIndexCalculator.load_history] and [__init__] *)

(** What the reading of the history file answers: there is no file, or
    [json.load] gives the mapping that was written, or the reading raises
    an exception with text [e]. *)
Inductive ReadOutcome :=
| NoFile
| ReadOk (data : gmap string DailyRecord)
| ReadError (e : string).

Definition load_history (io : ReadOutcome) (w : World)
    : gmap string DailyRecord * World :=
  match io with
  | ReadOk data =>
      (data,
       {| daily_indices := daily_indices w; disk := disk w;
          log := log w ++ [{| lr_level := INFO;
                              lr_message := "加载历史数据: " +:+
                                            Py.str_int (Z.of_nat (size data)) +:+
                                            " 条记录" |}] |})
  | ReadError e =>
      (∅,
       {| daily_indices := daily_indices w; disk := disk w;
          log := log w ++ [{| lr_level := ERROR;
                              lr_message := "加载历史数据失败: " +:+ e |}] |})
  | NoFile =>
      (∅,
       {| daily_indices := daily_indices w; disk := disk w;
          log := log w ++ [{| lr_level := INFO;
                              lr_message := "无历史数据文件，创建新记录" |}] |})
  end.

(** [RecessionIndexCalculator.__init__]: the history in memory is what
    [load_history] returns. *)
Definition init_calculator (io : ReadOutcome) (w : World) : World :=
  let '(data, w) := load_history io w in
  {| daily_indices := data; disk := disk w; log := log w |}.

(** ** [RecessionDashboard._plot_acceleration] and [_plot_history_trend] *)

(** What [_plot_acceleration] draws: the text for missing data, or one
    horizontal bar with its colour, its length, the title of the panel, the
    label and the side of the label. *)
Inductive AccelerationPlot :=
| NoAccelerationData
| AccelerationBar (color : string) (length : Q) (title : string)
    (label : string) (ha : string).

Definition plot_acceleration (daily_indices : gmap string DailyRecord)
    : AccelerationPlot :=
  match calculate_acceleration daily_indices default_days with
  | None => NoAccelerationData
  | Some acc_data =>
      let acc_value := acceleration acc_data in
      let color :=
        if Py.Qltb acc_value 0 then "green"
        else if Py.Qltb acc_value (Py.float (3 # 10)) then "orange"
        else "red" in
      AccelerationBar color (Py.abs acc_value)
        ("加速度趋势: " +:+ trend acc_data +:+ " [" +:+ severity acc_data +:+ "]")
        (severity acc_data)
        (if Py.Qltb 0 acc_value then "left" else "right")
  end.

(** What [_plot_history_trend] draws: the text for a short history, or the
    dates with the two series of base indices and probabilities. *)
Inductive HistoryPlot :=
| NotEnoughHistory
| HistorySeries (dates : list string) (indices probs : list Q).

Definition plot_history_trend (daily_indices : gmap string DailyRecord)
    : HistoryPlot :=
  if (size daily_indices <? 2)%nat then NotEnoughHistory
  else
    let dates := Py.slice_from (Py.sorted (map_to_list daily_indices).*1) (- 30) in
    let indices := (fun d => dr_index (daily_indices !!! d)) <$> dates in
    let probs := (fun d => dr_probability (daily_indices !!! d)) <$> dates in
    HistorySeries dates indices probs.

(** ** [MultiProblemCollector] *)

(** An entry of [self.problems]. *)
Record TrackedProblem := {
  tp_slug : string;
  tp_weight : Q;
  tp_name : string
}.

(** [self.problems], set in [__init__]. *)
Definition problems : list (string * list TrackedProblem) :=
  [("easy",
    [{| tp_slug := "two-sum"; tp_weight := 3 # 10; tp_name := "两数之和" |};
     {| tp_slug := "valid-parentheses"; tp_weight := 25 # 100;
        tp_name := "有效的括号" |};
     {| tp_slug := "merge-two-sorted-lists"; tp_weight := 25 # 100;
        tp_name := "合并有序链表" |};
     {| tp_slug := "best-time-to-buy-and-sell-stock"; tp_weight := 2 # 10;
        tp_name := "买卖股票" |}]);
   ("medium",
    [{| tp_slug := "add-two-numbers"; tp_weight := 3 # 10; tp_name := "两数相加" |};
     {| tp_slug := "longest-substring-without-repeating-characters";
        tp_weight := 25 # 100; tp_name := "无重复字符子串" |};
     {| tp_slug := "3sum"; tp_weight := 25 # 100; tp_name := "三数之和" |};
     {| tp_slug := "container-with-most-water"; tp_weight := 2 # 10;
        tp_name := "盛水容器" |}]);
   ("hard",
    [{| tp_slug := "median-of-two-sorted-arrays"; tp_weight := 3 # 10;
        tp_name := "两个有序数组的中位数" |};
     {| tp_slug := "merge-k-sorted-lists"; tp_weight := 25 # 100;
        tp_name := "合并K个有序链表" |};
     {| tp_slug := "regular-expression-matching"; tp_weight := 25 # 100;
        tp_name := "正则表达式匹配" |};
     {| tp_slug := "trapping-rain-water"; tp_weight := 2 # 10;
        tp_name := "接雨水" |}])].

(** What [fetch_problem_data] returns, as far as the collector and the
    calculator read it: on success the slug and the total of submissions
    of the dict, on failure the error text if there is one. *)
Inductive FetchOutcome :=
| FetchSuccess (data_slug : string) (data_total_submission : Z)
| FetchFailure (error : option string).

(** [results[difficulty].append(data)]. *)
Fixpoint append_result (difficulty : string) (data : Problem)
    (results : ProblemData) : ProblemData :=
  match results with
  | [] => []
  | (key, l) :: rest =>
      if decide (key = difficulty) then (key, l ++ [data]) :: rest
      else (key, l) :: append_result difficulty data rest
  end.

(** One turn of [for problem in problems] of [collect_all_problems], on the
    triple [(results, success_count, fail_count)]. *)
Definition collect_step (fetch : string -> FetchOutcome) (difficulty : string)
    (acc : ProblemData * nat * nat) (problem : TrackedProblem)
    : ProblemData * nat * nat :=
  let '(results, success_count, fail_count) := acc in
  match fetch (tp_slug problem) with
  | FetchSuccess data_slug data_total_submission =>
      let data := {| slug := data_slug; name := Some (tp_name problem);
                     total_submission := data_total_submission;
                     weight := tp_weight problem |} in
      (append_result difficulty data results, S success_count, fail_count)
  | FetchFailure _ => (results, success_count, S fail_count)
  end.

(** [_generate_demo_data]; [randint i] is the number that
    [random.randint(1000000, 5000000)] draws for the problem of rank [i]. *)
Definition demo_step (randint : nat -> Z) (difficulty : string)
    (acc : ProblemData * nat) (problem : TrackedProblem) : ProblemData * nat :=
  let '(demo_data, i) := acc in
  let base_submission := randint i in
  (append_result difficulty
     {| slug := tp_slug problem; name := Some (tp_name problem);
        total_submission := base_submission; weight := tp_weight problem |}
     demo_data,
   S i).

Definition generate_demo_data (randint : nat -> Z) : ProblemData :=
  (fold_left
     (fun acc item => fold_left (demo_step randint item.1) item.2 acc)
     problems
     ([("easy", []); ("medium", []); ("hard", []); ("timestamp", [])], O)).1.

(** [collect_all_problems]; [fetch] is the network as [fetch_problem_data]
    sees it. *)
Definition collect_all_problems (fetch : string -> FetchOutcome)
    (randint : nat -> Z) : ProblemData :=
  let '(results, success_count, fail_count) :=
    fold_left
      (fun acc item => fold_left (collect_step fetch item.1) item.2 acc)
      problems
      ([("easy", []); ("medium", []); ("hard", []); ("timestamp", [])], O, O) in
  if (success_count =? 0)%nat then generate_demo_data randint
  else results.

End Enhanced.

(* ===================================================================== *)
(** * [src/main.py] *)
(* ===================================================================== *)

Module Main.

Import Datetime.
Local Open Scope Z_scope.

(** A value of [self.history]: the record of one day. *)
Record DayRecord := {
  total_submission : Z;
  total_accepted : Z;
  ac_rate : Q;
  likes : Z;
  dislikes : Z;
  collection_time : option string;
  is_demo : option bool;
  daily_increment : option Z
}.

#[global] Instance DayRecord_inhabited : Inhabited DayRecord :=
  populate {| total_submission := 0; total_accepted := 0; ac_rate := 0%Q;
              likes := 0; dislikes := 0; collection_time := None;
              is_demo := None; daily_increment := None |}.

(** The dict returned by [fetch_current_data]; on a failure only [success]
    is there, and the other fields are not read. *)
Record FetchResult := {
  success : bool;
  fr_total_submission : Z;
  fr_total_accepted : Z;
  fr_ac_rate : Q;
  fr_likes : option Z;
  fr_dislikes : option Z
}.

(** [dates.index(today)], for a [today] that is in [dates]. *)
Fixpoint index_of (dates : list string) (today : string) : nat :=
  match dates with
  | [] => O
  | d :: ds => if decide (d = today) then O else S (index_of ds today)
  end.

(** [calculate_increment]: what it does to [self.history]. *)
Definition calculate_increment (today : string) (history : gmap string DayRecord)
    : gmap string DayRecord :=
  let dates := Py.sorted (map_to_list history).*1 in
  if (2 <=? length dates)%nat then
    let today_index := index_of dates today in
    if (0 <? today_index)%nat then
      let yesterday := nth (today_index - 1) dates "" in
      let today_total := total_submission (history !!! today) in
      let yesterday_total := total_submission (history !!! yesterday) in
      let increment := today_total - yesterday_total in
      alter (fun r => {| total_submission := total_submission r;
                         total_accepted := total_accepted r;
                         ac_rate := ac_rate r;
                         likes := likes r;
                         dislikes := dislikes r;
                         collection_time := collection_time r;
                         is_demo := is_demo r;
                         daily_increment := Some increment |}) today history
    else history
  else history.

(** [use_demo_data]: what it does to [self.history], and what it returns. *)
Definition use_demo_data (now : datetime) (history : gmap string DayRecord)
    : bool * gmap string DayRecord :=
  let today := strftime_ymd now in
  let history :=
    <[today := {| total_submission := 9123456;
                  total_accepted := 3456789;
                  ac_rate := (3456789 # 9123456)%Q;
                  likes := 45678;
                  dislikes := 1345;
                  collection_time := Some (strftime_hms now);
                  is_demo := Some true;
                  daily_increment := None |}]> history in
  (true, calculate_increment today history).

(** [collect_data]: what it does to [self.history], and what it returns.
    [result] is what [fetch_current_data] returned, [choice] the answer
    typed at the prompt, stripped and in lower case. *)
Definition collect_data (result : FetchResult) (choice : string) (now : datetime)
    (history : gmap string DayRecord) : bool * gmap string DayRecord :=
  if success result then
    let today := strftime_ymd now in
    let history :=
      <[today := {| total_submission := fr_total_submission result;
                    total_accepted := fr_total_accepted result;
                    ac_rate := fr_ac_rate result;
                    likes := default 0 (fr_likes result);
                    dislikes := default 0 (fr_dislikes result);
                    collection_time := Some (strftime_hms now);
                    is_demo := None;
                    daily_increment := None |}]> history in
    (true, calculate_increment today history)
  else if decide (choice = "y") then use_demo_data now history
  else (false, history).

(** ** [load_history] *)

(** A dict of the old list format of the history file. *)
Record LegacyRecord := {
  lg_date : option string;
  lg_total_submission : option Z;
  lg_total_accepted : option Z;
  lg_ac_rate : option Q;
  lg_likes : option Z;
  lg_dislikes : option Z
}.

(** An element of the old list: a dict or something else. *)
Inductive LegacyItem :=
| NotADict
| LegacyDict (record : LegacyRecord).

(** What [json.load] gives: the old list or the mapping by date. *)
Inductive HistoryJson :=
| JsonList (data : list LegacyItem)
| JsonDict (data : gmap string DayRecord).

Inductive ReadOutcome :=
| NoFile
| ReadOk (data : HistoryJson)
| ReadError (e : string).

(** One turn of [for record in data]. *)
Definition legacy_step (history_dict : gmap string DayRecord) (record : LegacyItem)
    : gmap string DayRecord :=
  match record with
  | LegacyDict r =>
      match lg_date r with
      | Some date =>
          <[date := {| total_submission := default 0 (lg_total_submission r);
                       total_accepted := default 0 (lg_total_accepted r);
                       ac_rate := default 0%Q (lg_ac_rate r);
                       likes := default 0 (lg_likes r);
                       dislikes := default 0 (lg_dislikes r);
                       collection_time := None;
                       is_demo := None;
                       daily_increment := None |}]> history_dict
      | None => history_dict
      end
  | NotADict => history_dict
  end.

Definition load_history (io : ReadOutcome) : gmap string DayRecord :=
  match io with
  | ReadOk (JsonList data) => fold_left legacy_step data ∅
  | ReadOk (JsonDict data) => data
  | ReadError _ => ∅
  | NoFile => ∅
  end.

(** ** [should_collect_now] *)

Definition collect_times : list string := ["00:00"; "08:00"; "16:00"].

(** The character [':']. *)
Definition colon : Ascii.ascii := Ascii.ascii_of_N 58.

(** [map(int, s.split(':'))] unpacked into two names; [None] stands for the
    ValueError of a string that does not split into two numbers. *)
Definition hour_minute (s : string) : option (Z * Z) :=
  match Py.split colon s with
  | [h; m] =>
      match Py.int h, Py.int m with
      | Some h, Some m => Some (h, m)
      | _, _ => None
      end
  | _ => None
  end.

(** The loop over [collect_times]; [None] stands for a ValueError. *)
Fixpoint should_collect_scan (times : list string) (last_collection : option string)
    (now : datetime) : option (bool * option string) :=
  match times with
  | [] => Some (false, None)
  | collect_time :: rest =>
      match hour_minute collect_time, hour_minute (strftime_hm now) with
      | Some (collect_hour, collect_minute), Some (current_hour, current_minute) =>
          let time_diff :=
            Z.abs ((current_hour * 60 + current_minute)
                   - (collect_hour * 60 + collect_minute)) in
          if time_diff <=? 5 then
            let today := strftime_ymd now in
            let collection_key := today +:+ "_" +:+ collect_time in
            if decide (Some collection_key <> last_collection)
            then Some (true, Some collection_key)
            else should_collect_scan rest last_collection now
          else should_collect_scan rest last_collection now
      | _, _ => None
      end
  end.

Definition should_collect_now (last_collection : option string) (now : datetime)
    : option (bool * option string) :=
  should_collect_scan collect_times last_collection now.

(** ** The increments of [plot_history] *)

(** The loop of lines 444 to 448: the increments that are not negative,
    each with its date. *)
Definition plotted_increments (dates : list string) (totals : list Z)
    : list (string * Z) :=
  omap (fun i =>
          let increment := nth i totals 0 - nth (i - 1) totals 0 in
          if 0 <=? increment then Some (nth i dates "", increment) else None)
       (Py.range 1 (length dates)).

(** The colour of a bar, lines 454 to 460. *)
Definition bar_color (avg_increment inc : Z) : string :=
  if Py.Qltb (inject_Z avg_increment * (3 # 2)) (inject_Z inc) then "red"
  else if Py.Qltb (inject_Z avg_increment * (6 # 5)) (inject_Z inc) then "orange"
  else "green".

(** The bars of the second panel of [plot_history]: date, increment and
    colour; no bar for fewer than two dates. *)
Definition increment_bars (history : gmap string DayRecord) : list (string * Z * string) :=
  let dates := Py.sorted (map_to_list history).*1 in
  let totals := (fun d => total_submission (history !!! d)) <$> dates in
  if (2 <=? length dates)%nat then
    let bars := plotted_increments dates totals in
    match bars with
    | [] => []
    | _ =>
        let increments := bars.*2 in
        let avg_increment := foldr Z.add 0 increments / Z.of_nat (length increments) in
        (fun b => (b.1, b.2, bar_color avg_increment b.2)) <$> bars
    end
  else [].

End Main.


(* ===================================================================== *)
(** * The specification's vocabulary *)
(* ===================================================================== *)

(** The definitions of this module follow the words of the specification,
    not the code; the theorems below compare the two. *)
Module Spec.

Import Enhanced.
Local Open Scope Q_scope.

(** The five risk levels, from the highest. *)
Inductive RiskLevel := Critical | Warning | Watch | Low | Safe.

(** The static table: label, conclusion and recommended action of a level. *)
Definition risk_table (l : RiskLevel) : string * string * string :=
  match l with
  | Critical => ("高危", "裁员风险极高，市场异常活跃", "立即关注市场动态，做好应急预案")
  | Warning => ("预警", "裁员风险较高，需要警惕", "保持关注，适当调整招聘计划")
  | Watch => ("关注", "中等风险，正常波动范围内", "定期监控，维持现状")
  | Low => ("低风险", "市场相对平稳", "正常运营，可适当招聘")
  | Safe => ("安全", "市场冷清，风险较低", "适合储备人才，等待时机")
  end.

(** The four trends with their severities. *)
Inductive Trend := AcceleratingUp | SlowRise | Flat | Declining.

Definition trend_table (t : Trend) : string * string :=
  match t with
  | AcceleratingUp => ("加速上升", "严重")
  | SlowRise => ("缓慢上升", "关注")
  | Flat => ("平稳", "正常")
  | Declining => ("下降", "好转")
  end.

(** The differences of consecutive elements. *)
Fixpoint diffs (l : list Q) : list Q :=
  match l with
  | a :: (b :: _) as t => (b - a) :: diffs t
  | _ => []
  end.

(** The differences of consecutive elements, each computed in binary64. *)
Fixpoint float_diffs (l : list Q) : list Q :=
  match l with
  | a :: (b :: _) as t => Py.float_sub b a :: float_diffs t
  | _ => []
  end.

(** The sum of a list. *)
Definition total (l : list Q) : Q := fold_right Qplus 0 l.

(** The mean of a list; [0] for the empty list. *)
Definition mean (l : list Q) : Q :=
  match l with
  | [] => 0
  | _ => total l / inject_Z (Z.of_nat (length l))
  end.

(** The mean of a list computed in binary64: the sum from the left, then
    the division by the length; [0] for the empty list. *)
Definition float_mean (l : list Q) : Q :=
  match l with
  | [] => 0
  | _ => Py.float_div (Py.float_sum l) (inject_Z (Z.of_nat (length l)))
  end.

(** The last [n] elements of a list. *)
Definition last_n {A} (n : nat) (l : list A) : list A := drop (length l - n) l.

(** [clamp x lo hi]. *)
Definition clamp (x lo hi : Q) : Q := Qmin (Qmax x lo) hi.

(** The recorded base indices of a history. *)
Definition recorded_indices (h : gmap string DailyRecord) : list Q :=
  dr_index <$> (map_to_list h).*2.

(** The three terms of the score. *)
Definition base_term (base_index : Q) : Q := Qmin (base_index * 40) 40.

Definition acceleration_term (a : option AccelerationData) : Q :=
  match a with
  | Some d =>
      if Qlt_le_dec 0 (acceleration d)
      then Qmin (Qmax (Qabs (acceleration d) * 20) 0) 30
      else 0
  | None => 0
  end.

Definition historical_term (h : gmap string DailyRecord) (base_index : Q) : Q :=
  if decide (h = ∅) then 0
  else
    let avg_index := mean (recorded_indices h) in
    if Qlt_le_dec 0 avg_index
    then Qmin (base_index / avg_index * 20) 20
    else 0.


(** The first snapshot of yesterday's record with a given slug. *)
Definition same_slug_snapshot (yesterday_data : option DailyRecord) (s : string)
    : option StoredProblem :=
  ps ← yesterday_data ≫= dr_problems;
  List.find (fun p => bool_decide (sp_slug p = Some s)) ps.


(** The increment as the code computes it: the difference to yesterday's
    snapshot if there is one with a positive total, the integer quotient
    of today's total by 100 otherwise. *)
Definition amended_increment (yesterday_data : option DailyRecord) (p : Problem) : Z :=
  match same_slug_snapshot yesterday_data (slug p) with
  | Some y =>
      let t := default 0%Z (sp_total_submission y) in
      if decide (0 < t)%Z then (total_submission p - t)%Z
      else (total_submission p `div` 100)%Z
  | None => (total_submission p `div` 100)%Z
  end.

(** The tiers of the day's input: every entry but the time stamp. *)
Definition tiers (problem_data : ProblemData) : ProblemData :=
  filter (fun item => item.1 <> "timestamp") problem_data.



(** The level of a score, by the exclusive lower bounds of the levels. *)
Inductive level_of : Q -> RiskLevel -> Prop :=
| level_critical s : 80 < s -> level_of s Critical
| level_warning s : 60 < s -> s <= 80 -> level_of s Warning
| level_watch s : 40 < s -> s <= 60 -> level_of s Watch
| level_low s : 20 < s -> s <= 40 -> level_of s Low
| level_safe s : s <= 20 -> level_of s Safe.

(** The trend of an acceleration, by the exclusive lower bounds 0.5, 0.1
    and -0.1, as the doubles that these literals are. *)
Inductive trend_of : Q -> Trend -> Prop :=
| trend_accelerating x : Py.float (1 # 2) < x -> trend_of x AcceleratingUp
| trend_slow_rise x :
    Py.float (1 # 10) < x -> x <= Py.float (1 # 2) -> trend_of x SlowRise
| trend_flat x :
    - Py.float (1 # 10) < x -> x <= Py.float (1 # 10) -> trend_of x Flat
| trend_declining x : x <= - Py.float (1 # 10) -> trend_of x Declining.

(** The dates of a history in chronological order: the keys, each once, in
    the order of the strings. *)
Definition chronological (h : gmap string DailyRecord) (dates : list string) : Prop :=
  Sorted String.le dates /\ dates ≡ₚ (map_to_list h).*1.

(** The number recorded as the base index of a date. *)
Definition recorded_on (h : gmap string DailyRecord) (d : string) : Q :=
  from_option dr_index 0 (h !! d).

(** The base index recorded on a date, as the double that the trend
    analyzer reads. *)
Definition index_on (h : gmap string DailyRecord) (d : string) : Q :=
  Py.float (recorded_on h d).

(** The day's record: the base index and the probability of the result, and
    a snapshot of every problem of the day's tiers. *)
Definition day_record (result : RiskResult) (problem_data : ProblemData) : DailyRecord :=
  {| dr_index := rr_base_index result;
     dr_probability := rr_probability result;
     dr_problems := Some (stored_problem <$> (item ← tiers problem_data; item.2)) |}.

(** What the caller of [collect_and_analyze] holds when the call is over:
    how the call ended, and the history in memory. *)
Definition caller_view (r : Outcome (RiskResult * ProblemData) * World)
    : Outcome (RiskResult * ProblemData) * gmap string DailyRecord :=
  (r.1, daily_indices r.2).

(** Calendar dates: the fields of a date within the ranges of [datetime]. *)
Definition calendar_date (d : Datetime.datetime) : Prop :=
  (1 <= Datetime.year d <= 9999 /\ 1 <= Datetime.month d <= 12 /\
   1 <= Datetime.day d <= 31)%Z.

(** The order of the calendar: by year, then month, then day. *)
Definition date_compare (a b : Datetime.datetime) : comparison :=
  match (Datetime.year a ?= Datetime.year b)%Z with
  | Eq =>
      match (Datetime.month a ?= Datetime.month b)%Z with
      | Eq => (Datetime.day a ?= Datetime.day b)%Z
      | c => c
      end
  | c => c
  end.

Definition date_le (a b : Datetime.datetime) : Prop := date_compare a b <> Gt.

(** ** The collector *)

(** The tracked problems, in the order of the catalog. *)
Definition tracked : list TrackedProblem := item ← problems; item.2.

Definition succeeded (o : FetchOutcome) : bool :=
  match o with
  | FetchSuccess _ _ => true
  | FetchFailure _ => false
  end.

(** What the collector keeps of a tracked problem: nothing if its request
    failed, else the answer with the weight and the name of the catalog. *)
Definition answered_problem (fetch : string -> FetchOutcome) (c : TrackedProblem)
    : option Problem :=
  match fetch (tp_slug c) with
  | FetchSuccess s t =>
      Some {| slug := s; name := Some (tp_name c); total_submission := t;
              weight := tp_weight c |}
  | FetchFailure _ => None
  end.

Definition answered (fetch : string -> FetchOutcome) (catalog : list TrackedProblem)
    : list Problem :=
  omap (answered_problem fetch) catalog.

(** The demo entry of the tracked problem of rank [i]. *)
Definition demo_problem (randint : nat -> Z) (i : nat) (c : TrackedProblem) : Problem :=
  {| slug := tp_slug c; name := Some (tp_name c); total_submission := randint i;
     weight := tp_weight c |}.

(** The demo entries of a catalog whose first problem has rank [first]. *)
Fixpoint demo_tiers (randint : nat -> Z) (first : nat)
    (catalog : list (string * list TrackedProblem)) : ProblemData :=
  match catalog with
  | [] => []
  | (d, l) :: rest =>
      (d, imap (fun i c => demo_problem randint (first + i) c) l)
      :: demo_tiers randint (first + length l) rest
  end.

(** The first entry under [difficulty] grown by the list [xs]. *)
Fixpoint extended (difficulty : string) (xs : list Problem) (results : ProblemData)
    : ProblemData :=
  match results with
  | [] => []
  | (key, l) :: rest =>
      if decide (key = difficulty) then (key, l ++ xs) :: rest
      else (key, l) :: extended difficulty xs rest
  end.

(** A network that answers a request with the slug that was asked, as both
    return sites of [fetch_problem_data] do. *)
Definition answers_what_was_asked (fetch : string -> FetchOutcome) : Prop :=
  forall q s t, fetch q = FetchSuccess s t -> s = q.

(** ** The collection service of [src/main.py] *)

(** The collection time whose window holds the minute [t] of the day: from
    five minutes before to five minutes after, within the same day. *)
Definition slot_of (t : Z) : option string :=
  if (t <=? 5)%Z then Some "00:00"
  else if ((475 <=? t) && (t <=? 485))%Z then Some "08:00"
  else if ((955 <=? t) && (t <=? 965))%Z then Some "16:00"
  else None.

(** A time of the day. *)
Definition clock_time (now : Datetime.datetime) : Prop :=
  (0 <= Datetime.hour now < 24 /\ 0 <= Datetime.minute now < 60)%Z.

(** The items of the old list that are dicts with the date [d]. *)
Definition dated (d : string) (item : Main.LegacyItem) : bool :=
  match item with
  | Main.LegacyDict r => bool_decide (Main.lg_date r = Some d)
  | Main.NotADict => false
  end.

(** The record that the migration makes of an item of the old list. *)
Definition migrated (item : Main.LegacyItem) : option Main.DayRecord :=
  match item with
  | Main.LegacyDict r =>
      Some {| Main.total_submission := default 0%Z (Main.lg_total_submission r);
              Main.total_accepted := default 0%Z (Main.lg_total_accepted r);
              Main.ac_rate := default 0 (Main.lg_ac_rate r);
              Main.likes := default 0%Z (Main.lg_likes r);
              Main.dislikes := default 0%Z (Main.lg_dislikes r);
              Main.collection_time := None;
              Main.is_demo := None;
              Main.daily_increment := None |}
  | Main.NotADict => None
  end.

(** [d] is the latest recorded date before [today]. *)
Definition previous_date {A} (h : gmap string A) (today d : string) : Prop :=
  is_Some (h !! d) /\ String.le d today /\ d <> today /\
  forall d', is_Some (h !! d') -> String.le d' today -> d' <> today -> String.le d' d.

End Spec.

(* ===================================================================== *)
(** * Concrete inputs *)
(* ===================================================================== *)

Module Examples.

Import Datetime Enhanced.
Local Open Scope Q_scope.

(** Fourteen consecutive days of January 2024 whose base index rises by
    exactly 1 each day. *)
Definition january (d : Z) : datetime :=
  {| year := 2024; month := 1; day := d;
     hour := 0; minute := 0; second := 0; microsecond := 0 |}.

Definition rising_history : gmap string DailyRecord :=
  list_to_map
    ((fun k : nat =>
        (strftime_ymd (january (Z.of_nat k)),
         {| dr_index := inject_Z (Z.of_nat k); dr_probability := 0;
            dr_problems := Some [] |})) <$> seq 1 14).

Definition rising_dates : list string := Py.sorted (map_to_list rising_history).*1.

(** Fourteen consecutive days: twelve with the base index 0, then 0.12 and
    1.32. *)
Definition threshold_history : gmap string DailyRecord :=
  list_to_map
    ((fun k : nat =>
        (strftime_ymd (january (Z.of_nat k)),
         {| dr_index := if (k <=? 12)%nat then 0
                        else if (k =? 13)%nat then 12 # 100 else 132 # 100;
            dr_probability := 0; dr_problems := Some [] |})) <$> seq 1 14).

Definition threshold_dates : list string :=
  Py.sorted (map_to_list threshold_history).*1.

(** The tenth of March 2024, eight in the morning. *)
Definition march_10 : datetime :=
  {| year := 2024; month := 3; day := 10;
     hour := 8; minute := 0; second := 0; microsecond := 0 |}.

Definition two_sum (total : Z) : Problem :=
  {| slug := "two-sum"; name := Some "两数之和";
     total_submission := total; weight := 3 # 10 |}.

(** A first run: one tracked problem with 1,000,050 submissions. *)
Definition first_run_input : ProblemData :=
  [("easy", [two_sum 1000050]); ("medium", []); ("hard", []); ("timestamp", [])].

(** A history whose record of the ninth of March holds a snapshot of the
    problem with no submission. *)
Definition zero_baseline_history : gmap string DailyRecord :=
  {[ "2024-03-09" :=
       {| dr_index := 0; dr_probability := 0;
          dr_problems :=
            Some [{| sp_slug := Some "two-sum"; sp_name := Some "两数之和";
                     sp_total_submission := Some 0%Z |}] |} ]}.

Definition second_day_input : ProblemData :=
  [("easy", [two_sum 500]); ("medium", []); ("hard", []); ("timestamp", [])].

(** A start with nothing in memory, nothing on disk and an empty log. *)
Definition empty_world : World := {| daily_indices := ∅; disk := None; log := [] |}.

(** One tracked problem with 6,000,000 submissions. *)
Definition busy_day_input : ProblemData :=
  [("easy", [two_sum 6000000]); ("medium", []); ("hard", []); ("timestamp", [])].


(** A network that answers every request, with [total] submissions. *)
Definition steady_network (total : Z) : string -> FetchOutcome :=
  fun q => FetchSuccess q total.

(** A network that answers for one problem only. *)
Definition only_three_sum : string -> FetchOutcome :=
  fun q => if decide (q = "3sum") then FetchSuccess q 4000000
           else FetchFailure (Some "not_found_in_public_api").

(** A network that answers nothing. *)
Definition dead_network : string -> FetchOutcome :=
  fun _ => FetchFailure None.

(** The tenth of March 2024, three minutes past eight. *)
Definition march_10_0803 : datetime :=
  {| year := 2024; month := 3; day := 10;
     hour := 8; minute := 3; second := 0; microsecond := 0 |}.

(** An answer of the network for the single problem of [src/main.py]. *)
Definition fetched_today : Main.FetchResult :=
  {| Main.success := true; Main.fr_total_submission := 9000500;
     Main.fr_total_accepted := 4000000; Main.fr_ac_rate := 4 # 9;
     Main.fr_likes := Some 50000%Z; Main.fr_dislikes := None |}.

End Examples.

(* ===================================================================== *)
(** * Dates as keys *)
(* ===================================================================== *)

Section DateKeys.

Import Datetime Spec.
Local Open Scope Z_scope.

Lemma string_app_assoc (s1 s2 s3 : string) :
  (s1 +:+ s2) +:+ s3 = s1 +:+ (s2 +:+ s3).
Proof.
  induction s1 as [|c s1 IH]; [reflexivity|].
  change (String c ((s1 +:+ s2) +:+ s3) = String c (s1 +:+ (s2 +:+ s3))).
  by rewrite IH.
Qed.

Lemma string_app_nil_r (s : string) : s +:+ "" = s.
Proof.
  induction s as [|c s IH]; [reflexivity|].
  change (String c (s +:+ "") = String c s). by rewrite IH.
Qed.

(** Digits compare as the numbers they write. *)
Lemma compare_digit (a b : Z) (s t : string) :
  (digit a +:+ s ?= digit b +:+ t)%string =
    match a mod 10 ?= b mod 10 with
    | Eq => (s ?= t)%string
    | c => c
    end.
Proof.
  pose proof (Z.mod_pos_bound a 10 eq_refl). pose proof (Z.mod_pos_bound b 10 eq_refl).
  unfold digit.
  change (String ?c "" +:+ ?r)%string with (String c r).
  cbn [String.compare]. unfold Ascii.compare.
  rewrite !Ascii.N_ascii_embedding by lia.
  replace (48 + Z.to_N (a mod 10) ?= 48 + Z.to_N (b mod 10))%N
    with (a mod 10 ?= b mod 10).
  { reflexivity. }
  rewrite <- N2Z.inj_compare, !N2Z.inj_add, !Z2N.id by lia. cbn [Z.of_N].
  by rewrite Z.add_compare_mono_l.
Qed.

(** Numerals of the same width compare as the numbers they write. *)
Lemma compare_pad (width : nat) (a b : Z) (s t : string) :
  0 <= a < 10 ^ Z.of_nat width -> 0 <= b < 10 ^ Z.of_nat width ->
  (pad width a +:+ s ?= pad width b +:+ t)%string =
    match a ?= b with
    | Eq => (s ?= t)%string
    | c => c
    end.
Proof.
  revert a b s t. induction width as [|w IH]; intros a b s t Ha Hb.
  - cbn in *. replace a with 0 by lia. replace b with 0 by lia. reflexivity.
  - rewrite Nat2Z.inj_succ, Z.pow_succ_r in Ha, Hb by lia.
    cbn [pad]. rewrite !string_app_assoc, IH, compare_digit.
    2,3: (split; [apply Z.div_pos; lia | apply Z.div_lt_upper_bound; lia]).
    pose proof (Z.div_mod a 10). pose proof (Z.div_mod b 10).
    pose proof (Z.mod_pos_bound a 10 eq_refl). pose proof (Z.mod_pos_bound b 10 eq_refl).
    destruct (Z.compare_spec (a / 10) (b / 10));
      destruct (Z.compare_spec (a mod 10) (b mod 10));
      destruct (Z.compare_spec a b); try reflexivity; exfalso; lia.
Qed.

(** The keys of two calendar dates compare as the dates. *)
Lemma strftime_ymd_compare (a b : datetime) :
  calendar_date a -> calendar_date b ->
  (strftime_ymd a ?= strftime_ymd b)%string = date_compare a b.
Proof.
  intros (Hy & Hm & Hd) (Hy' & Hm' & Hd'). unfold strftime_ymd, date_compare.
  rewrite compare_pad by (cbn; lia).
  destruct (year a ?= year b); [|reflexivity..].
  change (String ?c "" +:+ ?r)%string with (String c r). cbn [String.compare].
  change (Ascii.compare ?c ?c) with Eq. cbv iota.
  rewrite compare_pad by (cbn; lia).
  destruct (month a ?= month b); [|reflexivity..].
  change (String ?c "" +:+ ?r)%string with (String c r). cbn [String.compare].
  change (Ascii.compare ?c ?c) with Eq. cbv iota.
  rewrite <- (string_app_nil_r (pad 2 (day a))), <- (string_app_nil_r (pad 2 (day b))).
  rewrite compare_pad by (cbn; lia).
  by destruct (day a ?= day b).
Qed.

Lemma strftime_ymd_le (a b : datetime) :
  calendar_date a -> calendar_date b ->
  date_le a b -> String.le (strftime_ymd a) (strftime_ymd b).
Proof.
  intros Ha Hb Hle. unfold String.le, String.leb.
  rewrite strftime_ymd_compare by done. unfold date_le in Hle.
  by destruct (date_compare a b).
Qed.

(** Calendar dates in the order of the calendar have their keys in the
    order of the strings. *)
Lemma sorted_dates_sorted_keys (ds : list datetime) :
  Forall calendar_date ds -> Sorted date_le ds ->
  Sorted String.le (strftime_ymd <$> ds).
Proof.
  intros Hv Hs. induction Hs as [|d ds Hs IH Hd]; [constructor|].
  inversion Hv as [|? ? Hvd Hvds]; subst. cbn. constructor; [by apply IH|].
  destruct Hd as [|d' ds' Hle]; constructor.
  inversion Hvds; subst. by apply strftime_ymd_le.
Qed.

End DateKeys.

(* ===================================================================== *)
(** * Facts about the built-ins *)
(* ===================================================================== *)

Section PyFacts.

Local Open Scope Q_scope.

Lemma Qltb_lt (x y : Q) : Py.Qltb x y = true <-> x < y.
Proof.
  unfold Py.Qltb. rewrite negb_true_iff, <- not_true_iff_false, Qle_bool_iff.
  split; [apply Qnot_le_lt | apply Qlt_not_le].
Qed.

Lemma Qltb_ge (x y : Q) : Py.Qltb x y = false <-> y <= x.
Proof. unfold Py.Qltb. rewrite negb_false_iff. apply Qle_bool_iff. Qed.

Lemma Qltb_reflect (x y : Q) : reflect (x < y) (Py.Qltb x y).
Proof.
  destruct (Py.Qltb x y) eqn:E; constructor.
  - by apply Qltb_lt.
  - apply Qltb_ge in E. by apply Qle_not_lt.
Qed.

#[global] Instance Qltb_proper : Proper (Qeq ==> Qeq ==> eq) Py.Qltb.
Proof. intros x x' Hx y y' Hy. unfold Py.Qltb. by rewrite Hx, Hy. Qed.

(** Equal numbers have the same nearest double. *)
Lemma float_proper (x y : Q) : x == y -> Py.float x = Py.float y.
Proof. intros H. unfold Py.float. by rewrite (Qred_complete _ _ H). Qed.

Lemma float_zero (x : Q) : x == 0 -> Py.float x = 0.
Proof. intros H. by rewrite (float_proper _ _ H). Qed.

Lemma float_sub_diag (x y : Q) : x == y -> Py.float_sub x y = 0.
Proof. intros H. apply float_zero. rewrite H. ring. Qed.

Lemma float_sum_zeros (l : list Q) : Forall (fun v => v = 0) l -> Py.float_sum l = 0.
Proof.
  unfold Py.float_sum. induction 1 as [|x l -> _ IH]; [reflexivity|]. exact IH.
Qed.

(** The doubles of the literals 0.5, 0.1 and 0.3. *)
Lemma float_half : Py.float (1 # 2) = 1 # 2.
Proof. by vm_compute. Qed.

Lemma float_tenth : Py.float (1 # 10) = 3602879701896397 # 36028797018963968.
Proof. by vm_compute. Qed.

Lemma float_three_tenths : Py.float (3 # 10) = 5404319552844595 # 18014398509481984.
Proof. by vm_compute. Qed.

(** Binary64 at work: [0.1 + 0.2] is not [0.3]; [1.32 - 0.12] lies halfway
    between two doubles and goes to the even one, 1.2000000000000002; the
    integers above [2^53] go to the even neighbour; half of the least
    subnormal number goes to 0 and three halves of it to its double. *)
Example float_arithmetic :
  Py.float_add (Py.float (1 # 10)) (Py.float (2 # 10)) =
    1351079888211149 # 4503599627370496 /\
  Py.float_add (Py.float (1 # 10)) (Py.float (2 # 10)) <> Py.float (3 # 10) /\
  Py.float_sub (Py.float (132 # 100)) (Py.float (12 # 100)) =
    1351079888211149 # 1125899906842624 /\
  Py.float (inject_Z (2 ^ 53 + 1)) = inject_Z (2 ^ 53) /\
  Py.float (inject_Z (2 ^ 53 + 3)) = inject_Z (2 ^ 53 + 4) /\
  Py.float (Py.pow2 (-1075)) = 0 /\
  Py.float (3 * Py.pow2 (-1075)) == Py.pow2 (-1073).
Proof. repeat split; by vm_compute. Qed.

Lemma py_min_Qmin (a b : Q) : Py.min a b == Qmin a b.
Proof.
  unfold Py.min. destruct (Qltb_reflect b a) as [H|H].
  - symmetry. apply Q.min_r. by apply Qlt_le_weak.
  - symmetry. apply Q.min_l. by apply Qnot_lt_le.
Qed.

Lemma py_max_Qmax (a b : Q) : Py.max a b == Qmax a b.
Proof.
  unfold Py.max. destruct (Qltb_reflect a b) as [H|H].
  - symmetry. apply Q.max_r. by apply Qlt_le_weak.
  - symmetry. apply Q.max_l. by apply Qnot_lt_le.
Qed.

Lemma py_min_le_r (a b : Q) : Py.min a b <= b.
Proof. rewrite py_min_Qmin. apply Q.le_min_r. Qed.

Lemma py_min_le_l (a b : Q) : Py.min a b <= a.
Proof. rewrite py_min_Qmin. apply Q.le_min_l. Qed.

Lemma py_max_ge_r (a b : Q) : b <= Py.max a b.
Proof. rewrite py_max_Qmax. apply Q.le_max_r. Qed.

(** [min(max(x, lo), hi)] stays between the bounds. *)
Lemma py_clamp_bounds (x lo hi : Q) :
  lo <= hi -> lo <= Py.min (Py.max x lo) hi <= hi.
Proof.
  intros Hlh. split; [|apply py_min_le_r].
  rewrite py_min_Qmin. apply Q.min_glb; [apply py_max_ge_r | done].
Qed.

Lemma py_clamp_spec (x lo hi : Q) :
  Py.min (Py.max x lo) hi == Spec.clamp x lo hi.
Proof.
  unfold Spec.clamp. rewrite py_min_Qmin.
  apply Q.min_compat; [apply py_max_Qmax | reflexivity].
Qed.

End PyFacts.

(* ===================================================================== *)
(** * The seasonal adjuster *)
(* ===================================================================== *)

Section Seasonal.

Import Datetime Enhanced.

(** C9. The seasonal adjuster depends on the calendar month only: in the
    months 3, 4, 9 and 10 it answers the factor 1.3 with the label of the
    hiring season, in every other month the factor 0.8 with the label of
    the off season. *)
Theorem seasonal_factor_by_month (now : datetime) :
  analyze_seasonal_pattern now =
    if bool_decide (month now ∈ [3; 4; 9; 10]%Z)
    then ((13 # 10)%Q, "求职旺季")
    else ((8 # 10)%Q, "求职淡季").
Proof.
  unfold analyze_seasonal_pattern, hiring_seasons. cbn [fmap list_fmap snd existsb].
  repeat case_bool_decide; cbn [orb]; try reflexivity; exfalso;
    rewrite ?elem_of_cons, ?elem_of_nil in *; intuition lia.
Qed.

End Seasonal.

(* ===================================================================== *)
(** * The risk levels *)
(* ===================================================================== *)

Section RiskLevels.

Import Enhanced Spec.
Local Open Scope Q_scope.

Lemma risk_table_inj : Inj (=) (=) risk_table.
Proof. intros [] []; cbn; intros E; try reflexivity; discriminate E. Qed.

(** C6. The level of a score is fixed by exclusive lower bounds (above 80
    critical, above 60 warning, above 40 watch, above 20 low, safe
    otherwise); the label, the conclusion and the action are those of the
    level in the table of five entries; and a score on a boundary falls into
    the lower level. *)
Theorem risk_level_thresholds (score : Q) :
  (exists l, level_of score l /\ risk_level score = risk_table l) /\
  (forall l, risk_level score = risk_table l -> level_of score l) /\
  risk_level 80 = risk_table Warning /\
  risk_level 60 = risk_table Watch /\
  risk_level 40 = risk_table Low /\
  risk_level 20 = risk_table Safe.
Proof.
  assert (Hex : exists l, level_of score l /\ risk_level score = risk_table l).
  { unfold risk_level.
    destruct (Qltb_reflect 80 score) as [H80|H80];
      [exists Critical; split; [by constructor | reflexivity]|].
    apply Qnot_lt_le in H80.
    destruct (Qltb_reflect 60 score) as [H60|H60];
      [exists Warning; split; [by constructor | reflexivity]|].
    apply Qnot_lt_le in H60.
    destruct (Qltb_reflect 40 score) as [H40|H40];
      [exists Watch; split; [by constructor | reflexivity]|].
    apply Qnot_lt_le in H40.
    destruct (Qltb_reflect 20 score) as [H20|H20];
      [exists Low; split; [by constructor | reflexivity]|].
    apply Qnot_lt_le in H20.
    exists Safe; split; [by constructor | reflexivity]. }
  split; [exact Hex|]. split; [|repeat split; reflexivity].
  intros l Hl. destruct Hex as (l' & Hlev & Htab).
  rewrite Htab in Hl. apply risk_table_inj in Hl. by subst.
Qed.

Lemma risk_level_thresholds_witness : level_of 85 Critical.
Proof.
  apply (proj1 (proj2 (risk_level_thresholds 85)) Critical).
  vm_compute. reflexivity.
Defined.

End RiskLevels.

(* ===================================================================== *)
(** * The trend analyzer *)
(* ===================================================================== *)

Section Trend.

Import Datetime Enhanced Spec.
Local Open Scope Q_scope.

(** The two loops of [calculate_acceleration] compute consecutive
    differences. *)
Lemma derivative_cons (a : Q) (l : list Q) :
  derivative (a :: l) =
    match l with
    | [] => []
    | b :: _ => Py.float_sub b a :: derivative l
    end.
Proof.
  destruct l as [|b l]; [reflexivity|].
  unfold derivative, Py.range. cbn [length].
  replace (S (S (length l)) - 1)%nat with (S (length l)) by lia.
  replace (S (length l) - 1)%nat with (length l) by lia.
  cbn [seq fmap list_fmap nth]. f_equal.
  rewrite <- fmap_S_seq, <- list_fmap_compose.
  apply list_fmap_ext. intros i j Hj. cbn.
  apply lookup_seq in Hj as [-> _]. cbn.
  by rewrite Nat.sub_0_r.
Qed.

Lemma derivative_float_diffs (l : list Q) : derivative l = float_diffs l.
Proof.
  induction l as [|a l IH]; [reflexivity|].
  rewrite derivative_cons. destruct l as [|b l]; [reflexivity|].
  cbn [float_diffs]. by rewrite IH.
Qed.

Lemma length_float_diffs (l : list Q) : length (float_diffs l) = (length l - 1)%nat.
Proof.
  induction l as [|a [|b l] IH]; [reflexivity..|].
  cbn [float_diffs length] in *. rewrite IH. lia.
Qed.

Lemma fold_left_Qplus (l : list Q) (a : Q) :
  fold_left Qplus l a == a + total l.
Proof.
  revert a. induction l as [|x l IH]; intros a; cbn.
  - ring.
  - rewrite IH. unfold total. ring.
Qed.

Lemma py_sum_total (l : list Q) : Py.sum l == total l.
Proof. unfold Py.sum. rewrite fold_left_Qplus. ring. Qed.

Lemma slice_from_last {A} (l : list A) (n : Z) :
  (0 < n <= Z.of_nat (length l))%Z ->
  Py.slice_from l (- n) = last_n (Z.to_nat n) l.
Proof.
  intros Hn. unfold Py.slice_from, last_n.
  destruct (Z.ltb_spec (- n) 0) as [_|?]; [|lia].
  f_equal. lia.
Qed.

Lemma length_keys (h : gmap string DailyRecord) :
  length (map_to_list h).*1 = size h.
Proof. by rewrite length_fmap, length_map_to_list. Qed.

Lemma length_sorted (l : list string) : length (Py.sorted l) = length l.
Proof. unfold Py.sorted. by rewrite merge_sort_Permutation. Qed.

Lemma sorted_chronological (h : gmap string DailyRecord) :
  chronological h (Py.sorted (map_to_list h).*1).
Proof.
  split; [apply (Sorted_merge_sort String.le) | apply merge_sort_Permutation].
Qed.

Lemma chronological_unique (h : gmap string DailyRecord) (dates : list string) :
  chronological h dates -> dates = Py.sorted (map_to_list h).*1.
Proof.
  intros [Hs Hp]. destruct (sorted_chronological h) as [Hs' Hp'].
  apply (Sorted_unique String.le); [done..|]. by rewrite Hp, Hp'.
Qed.

Lemma index_on_lookup_total (h : gmap string DailyRecord) (d : string) :
  d ∈ (map_to_list h).*1 -> Py.float (dr_index (h !!! d)) = index_on h d.
Proof.
  intros Hd. apply list_elem_of_fmap in Hd as ([k v] & -> & Hkv).
  apply elem_of_map_to_list in Hkv. cbn.
  unfold index_on, recorded_on. rewrite lookup_total_alt, Hkv. reflexivity.
Qed.

(** The trend that the chain of comparisons of [calculate_acceleration]
    selects. *)
Lemma trend_chain (avg : Q) :
  exists t,
    (if Py.Qltb (Py.float (1 # 2)) avg then ("加速上升", "严重")
     else if Py.Qltb (Py.float (1 # 10)) avg then ("缓慢上升", "关注")
     else if Py.Qltb (- Py.float (1 # 10)) avg then ("平稳", "正常")
     else ("下降", "好转")) = trend_table t /\
    trend_of avg t.
Proof.
  destruct (Qltb_reflect (Py.float (1 # 2)) avg) as [H1|H1].
  { exists AcceleratingUp. split; [reflexivity | by constructor]. }
  apply Qnot_lt_le in H1.
  destruct (Qltb_reflect (Py.float (1 # 10)) avg) as [H2|H2].
  { exists SlowRise. split; [reflexivity | by constructor]. }
  apply Qnot_lt_le in H2.
  destruct (Qltb_reflect (- Py.float (1 # 10)) avg) as [H3|H3].
  { exists Flat. split; [reflexivity | by constructor]. }
  apply Qnot_lt_le in H3.
  exists Declining. split; [reflexivity | by constructor].
Qed.

(** The value and the labels [calculate_acceleration] answers when it has
    enough dates. *)
Lemma calculate_acceleration_enough (h : gmap string DailyRecord) (days : Z) :
  (days <= Z.of_nat (size h))%Z ->
  exists a t,
    calculate_acceleration h days = Some a /\
    acceleration a =
      float_mean (float_diffs (float_diffs ((fun d => Py.float (dr_index (h !!! d))) <$>
                    Py.slice_from (Py.sorted (map_to_list h).*1) (- days)))) /\
    (trend a, severity a) = trend_table t /\
    trend_of (acceleration a) t.
Proof.
  intros Hdays. unfold calculate_acceleration.
  destruct (Z.ltb_spec (Z.of_nat (size h)) days) as [?|_]; [lia|].
  rewrite !derivative_float_diffs.
  set (sd := float_diffs (float_diffs _)).
  change (match sd with
          | [] => 0
          | _ => Py.float_div (Py.float_sum sd) (inject_Z (Z.of_nat (length sd)))
          end) with (float_mean sd).
  destruct (trend_chain (float_mean sd)) as (t & Htab & Ht).
  destruct (if Py.Qltb (Py.float (1 # 2)) (float_mean sd) then _ else _)
    as [tr sev] eqn:Hchain.
  exists {| acceleration := float_mean sd; trend := tr; severity := sev |}, t.
  repeat split; [exact Htab | exact Ht].
Qed.

Lemma window_indices (h : gmap string DailyRecord) (dates : list string) (n : nat) :
  dates ≡ₚ (map_to_list h).*1 ->
  (fun d => Py.float (dr_index (h !!! d))) <$> last_n n dates =
    index_on h <$> last_n n dates.
Proof.
  intros Hp. apply list_fmap_ext. intros i d Hd.
  apply index_on_lookup_total. rewrite <- Hp.
  apply list_elem_of_lookup_2 in Hd. unfold last_n in Hd.
  by apply (subseteq_drop (length dates - n) dates).
Qed.

(** C3. With at least [days] recorded dates ([days] at least 2), the
    acceleration is the mean of the second differences (there are
    [days - 2] of them) of the first differences (there are [days - 1]) of
    the last [days] base indices in chronological order, and the trend and
    the severity follow the exclusive bounds 0.5, 0.1 and -0.1. The
    numbers are floats: the indices are the doubles that the records hold,
    every difference, the sum from the left and the division are those of
    binary64, and the bounds are the doubles of the three literals. The
    order is that of the keys as strings, which for keys written from
    calendar dates is the order of the calendar. *)
Theorem acceleration_is_mean_second_difference
    (h : gmap string DailyRecord) (days : Z) (dates : list string) :
  (2 <= days <= Z.of_nat (size h))%Z ->
  chronological h dates ->
  let window := index_on h <$> last_n (Z.to_nat days) dates in
  Z.of_nat (length window) = days /\
  Z.of_nat (length (float_diffs window)) = (days - 1)%Z /\
  Z.of_nat (length (float_diffs (float_diffs window))) = (days - 2)%Z /\
  (exists a t,
     calculate_acceleration h days = Some a /\
     acceleration a = float_mean (float_diffs (float_diffs window)) /\
     (trend a, severity a) = trend_table t /\
     trend_of (acceleration a) t) /\
  (forall ds,
     Forall calendar_date ds -> Sorted date_le ds ->
     (map_to_list h).*1 ≡ₚ strftime_ymd <$> ds ->
     dates = strftime_ymd <$> ds).
Proof.
  intros Hdays Hchron window.
  assert (Hlen : length dates = size h).
  { destruct Hchron as [_ Hp]. by rewrite Hp, length_keys. }
  assert (Hw : length window = Z.to_nat days).
  { subst window. unfold last_n. rewrite length_fmap, length_drop. lia. }
  rewrite !length_float_diffs, Hw.
  split; [lia|]. split; [lia|]. split; [lia|]. split.
  - destruct (calculate_acceleration_enough h days) as (a & t & Ha & Hacc & Ht & Htr);
      [lia|].
    exists a, t. split; [exact Ha|]. split; [|done].
    rewrite Hacc. rewrite <- (chronological_unique h dates Hchron).
    rewrite slice_from_last by lia.
    rewrite window_indices by apply Hchron. reflexivity.
  - intros ds Hcal Hsorted Hkeys. destruct Hchron as [Hs Hp].
    apply (Sorted_unique String.le); [done| |by rewrite Hp].
    by apply sorted_dates_sorted_keys.
Qed.

Lemma slice_from_all {A} (l : list A) (n : Z) :
  n = Z.of_nat (length l) -> Py.slice_from l (- n) = l.
Proof.
  intros ->. unfold Py.slice_from.
  destruct (Z.ltb_spec (- Z.of_nat (length l)) 0).
  - replace (Z.to_nat _) with O by lia. reflexivity.
  - replace (Z.to_nat _) with O by lia. reflexivity.
Qed.

(** Doubles that rise by one exact step have one first difference. *)
Lemma float_diffs_linear (w : list Q) (step : Q) :
  (forall i x y, w !! i = Some x -> w !! S i = Some y -> y - x == step) ->
  Forall (fun v => v = Py.float step) (float_diffs w).
Proof.
  induction w as [|a [|b w] IH]; intros Hs; [constructor..|].
  cbn [float_diffs]. constructor.
  - apply float_proper. by apply (Hs O a b).
  - apply IH. intros i x y Hx Hy. by apply (Hs (S i) x y).
Qed.

Lemma float_diffs_constant (l : list Q) (c : Q) :
  Forall (fun v => v = c) l -> Forall (fun v => v = 0) (float_diffs l).
Proof.
  induction l as [|a [|b l] IH]; intros Hc; [constructor..|].
  cbn [float_diffs]. inversion Hc as [|? ? Ha Hc']; subst.
  inversion Hc' as [|? ? Hb _]; subst.
  constructor; [by apply float_sub_diag | by apply IH].
Qed.

Lemma float_mean_zero (l : list Q) : Forall (fun v => v = 0) l -> float_mean l = 0.
Proof.
  intros Hl. unfold float_mean. destruct l; [reflexivity|].
  rewrite (float_sum_zeros _ Hl). apply float_zero. unfold Qdiv. ring.
Qed.

(** The acceleration 0 is flat. *)
Lemma trend_of_zero (t : Trend) : trend_of 0 t -> t = Flat.
Proof.
  intros Ht. inversion Ht as [x Hx|x Hx Hx'|x Hx Hx'|x Hx]; subst;
    rewrite ?float_half, ?float_tenth in *; first [reflexivity | by exfalso].
Qed.

(** C5. The trend analyzer answers no result exactly when the history has
    fewer than [days] recorded dates; with exactly [days] recorded dates
    whose base indices rise by a constant amount from each date to the next,
    it answers the acceleration 0 with the trend flat and the severity
    normal. *)
Theorem acceleration_none_or_flat (h : gmap string DailyRecord) (days : Z) :
  (calculate_acceleration h days = None <-> (Z.of_nat (size h) < days)%Z) /\
  (forall (dates : list string) (step : Q),
     Z.of_nat (size h) = days ->
     chronological h dates ->
     (forall i x y,
        (index_on h <$> dates) !! i = Some x ->
        (index_on h <$> dates) !! S i = Some y ->
        y - x == step) ->
     exists a,
       calculate_acceleration h days = Some a /\
       acceleration a == 0 /\
       trend a = "平稳" /\ severity a = "正常").
Proof.
  split.
  - split.
    + intros Hn. destruct (Z.ltb_spec (Z.of_nat (size h)) days) as [?|Hge]; [done|].
      destruct (calculate_acceleration_enough h days Hge) as (a & _ & Ha & _).
      congruence.
    + intros Hlt. unfold calculate_acceleration.
      by destruct (Z.ltb_spec (Z.of_nat (size h)) days) as [_|?]; [|lia].
  - intros dates step Hsize Hchron Hlin.
    destruct (calculate_acceleration_enough h days) as (a & t & Ha & Hacc & Ht & Htr);
      [lia|].
    assert (Hzero : acceleration a = 0).
    { rewrite Hacc. apply float_mean_zero, (float_diffs_constant _ (Py.float step)), float_diffs_linear.
      rewrite slice_from_all by (by rewrite length_sorted, length_keys).
      rewrite <- (chronological_unique h dates Hchron).
      pose proof (window_indices h dates (length dates) (proj2 Hchron)) as Hw.
      unfold last_n in Hw. rewrite Nat.sub_diag, !drop_0 in Hw.
      rewrite Hw. exact Hlin. }
    exists a. split; [exact Ha|]. split; [by rewrite Hzero|].
    rewrite Hzero in Htr. apply trend_of_zero in Htr as ->.
    cbn in Ht. by inversion Ht.
Qed.

End Trend.

Section TrendExamples.

Import Datetime Enhanced Spec Examples.
Local Open Scope Q_scope.

Lemma acceleration_is_mean_second_difference_witness :
  let window := index_on rising_history <$> last_n (Z.to_nat 14) rising_dates in
  Z.of_nat (length window) = 14%Z /\
  Z.of_nat (length (float_diffs window)) = (14 - 1)%Z /\
  Z.of_nat (length (float_diffs (float_diffs window))) = (14 - 2)%Z /\
  (exists a t,
     calculate_acceleration rising_history 14 = Some a /\
     acceleration a = float_mean (float_diffs (float_diffs window)) /\
     (trend a, severity a) = trend_table t /\
     trend_of (acceleration a) t) /\
  (forall ds,
     Forall calendar_date ds -> Sorted date_le ds ->
     (map_to_list rising_history).*1 ≡ₚ strftime_ymd <$> ds ->
     rising_dates = strftime_ymd <$> ds).
Proof.
  apply (acceleration_is_mean_second_difference rising_history 14 rising_dates).
  - vm_compute. split; discriminate.
  - apply sorted_chronological.
Defined.

Lemma acceleration_none_or_flat_witness :
  exists a,
    calculate_acceleration rising_history 14 = Some a /\
    acceleration a == 0 /\
    trend a = "平稳" /\ severity a = "正常".
Proof.
  apply (proj2 (acceleration_none_or_flat rising_history 14) rising_dates 1).
  - vm_compute. reflexivity.
  - apply sorted_chronological.
  - assert (Hl : index_on rising_history <$> rising_dates =
                 inject_Z <$> [1; 2; 3; 4; 5; 6; 7; 8; 9; 10; 11; 12; 13; 14]%Z)
      by (vm_compute; reflexivity).
    rewrite Hl. intros i x y.
    do 14 (destruct i as [|i]; [cbn; intros [= <-] [= <-]; reflexivity|]).
    cbn. intros _ [=].
Defined.

(** The rounding of binary64 shows at the bounds. The second differences
    of the recorded numbers 0 (twelve times), 0.12 and 1.32 have the exact
    mean 0.1, which is not above the bound 0.1; the analyzer computes
    0.10000000000000002 from the doubles, which is, and answers a slow
    rise. *)
Example rounding_at_the_bound :
  mean (diffs (diffs (recorded_on threshold_history <$> threshold_dates))) == 1 # 10 /\
  calculate_acceleration threshold_history 14 =
    Some {| acceleration := 7205759403792795 # 72057594037927936;
            trend := "缓慢上升"; severity := "关注" |}.
Proof. split; [by vm_compute | by vm_compute]. Qed.

End TrendExamples.

(* ===================================================================== *)
(** * The risk scorer *)
(* ===================================================================== *)

Section Rounding.

Local Open Scope Q_scope.

(** Rounding to the nearest integer stays within integer bounds. *)
Lemma round_half_even_bounds (y : Q) (a b : Z) :
  inject_Z a <= y -> y <= inject_Z b ->
  (a <= Py.round_half_even y <= b)%Z.
Proof.
  intros Ha Hb.
  assert (Hfa : (a <= Qfloor y)%Z).
  { rewrite <- (Qfloor_Z a). by apply Qfloor_resp_le. }
  assert (Hfb : (Qfloor y <= b)%Z).
  { rewrite <- (Qfloor_Z b). by apply Qfloor_resp_le. }
  assert (Hup : 1 # 2 <= y - inject_Z (Qfloor y) -> (Qfloor y + 1 <= b)%Z).
  { intros Hr. assert (inject_Z (Qfloor y) < inject_Z b) as Hlt by lra.
    rewrite <- Zlt_Qlt in Hlt. lia. }
  unfold Py.round_half_even.
  destruct (Qltb_reflect (y - inject_Z (Qfloor y)) (1 # 2)) as [Hr|Hr]; [lia|].
  apply Qnot_lt_le in Hr. specialize (Hup Hr).
  destruct (Py.Qltb _ _); [lia|]. destruct (Z.even _); lia.
Qed.

(** [round(x, 1)] of a number between 0 and 100 is between 0 and 100. *)
Lemma round_1_bounds (x : Q) : 0 <= x <= 100 -> 0 <= Py.round x 1 <= 100.
Proof.
  intros [H0 H100]. unfold Py.round.
  change (inject_Z (10 ^ Z.of_nat 1)) with (inject_Z 10).
  destruct (round_half_even_bounds (x * inject_Z 10) 0 1000) as [Hlo Hhi].
  - change (inject_Z 0) with 0. change (inject_Z 10) with 10. lra.
  - change (inject_Z 1000) with 1000. change (inject_Z 10) with 10. lra.
  - rewrite Zle_Qle in Hlo, Hhi.
    change (inject_Z 0) with 0 in Hlo. change (inject_Z 1000) with 1000 in Hhi.
    change (inject_Z 10) with 10.
    set (r := inject_Z (Py.round_half_even _)) in *.
    split.
    + apply Qle_shift_div_l; lra.
    + apply Qle_shift_div_r; lra.
Qed.

End Rounding.

Section Scorer.

Import Datetime Enhanced Spec.
Local Open Scope Q_scope.

Lemma base_term_le (b : Q) : base_term b <= 40.
Proof. apply Q.le_min_r. Qed.

Lemma acceleration_term_bounds (a : option AccelerationData) :
  0 <= acceleration_term a <= 30.
Proof.
  unfold acceleration_term. destruct a as [d|]; [|lra].
  destruct (Qlt_le_dec 0 (acceleration d)); [|lra].
  split; [|apply Q.le_min_r].
  apply Q.min_glb; [apply Q.le_max_r | lra].
Qed.

Lemma historical_term_le (h : gmap string DailyRecord) (b : Q) :
  historical_term h b <= 20.
Proof.
  unfold historical_term. destruct (decide (h = ∅)); [lra|].
  cbv zeta. destruct (Qlt_le_dec 0 _); [apply Q.le_min_r | lra].
Qed.

(** The step of lines 578 to 582. *)
Lemma acceleration_step (s : Q) (a : option AccelerationData) :
  match a with
  | Some d =>
      if Py.Qltb 0 (acceleration d)
      then s + Py.min (Py.max (Py.abs (acceleration d) * 20) 0) 30
      else s
  | None => s
  end == s + acceleration_term a.
Proof.
  unfold acceleration_term. destruct a as [d|]; [|ring].
  destruct (Qltb_reflect 0 (acceleration d)) as [H|H];
    destruct (Qlt_le_dec 0 (acceleration d)) as [H'|H'].
  - rewrite py_clamp_spec. reflexivity.
  - exfalso. lra.
  - exfalso. lra.
  - ring.
Qed.

(** The step of lines 585 to 592. *)
Lemma historical_step (h : gmap string DailyRecord) (b s : Q) :
  (if (0 <? size h)%nat then
     match dr_index <$> (map_to_list h).*2 with
     | [] => s
     | _ =>
         let avg_index :=
           Py.sum (dr_index <$> (map_to_list h).*2) /
           inject_Z (Z.of_nat (length (dr_index <$> (map_to_list h).*2))) in
         if Py.Qltb 0 avg_index
         then s + Py.min (b / avg_index * 20) 20
         else s
     end
   else s) == s + historical_term h b.
Proof.
  unfold historical_term, recorded_indices.
  destruct (decide (h = ∅)) as [->|Hne].
  { rewrite map_size_empty. cbn. ring. }
  assert (Hsize : (0 < size h)%nat).
  { apply map_size_non_empty_iff in Hne. lia. }
  destruct (Nat.ltb_spec 0 (size h)) as [_|?]; [|lia].
  set (indices := dr_index <$> _).
  assert (Hmean : Py.sum indices / inject_Z (Z.of_nat (length indices)) == mean indices).
  { unfold mean. destruct indices eqn:E.
    - exfalso. apply (f_equal length) in E. subst indices.
      rewrite !length_fmap, length_map_to_list in E. cbn in E. lia.
    - by rewrite py_sum_total. }
  destruct indices eqn:E.
  { exfalso. apply (f_equal length) in E. subst indices.
    rewrite !length_fmap, length_map_to_list in E. cbn in E. lia. }
  rewrite <- E in *. cbv zeta.
  destruct (Qlt_le_dec 0 (mean indices)) as [Hpos|Hneg];
    destruct (Qltb_reflect 0 (Py.sum indices / inject_Z (Z.of_nat (length indices))))
      as [H|H].
  - rewrite py_min_Qmin, Hmean. reflexivity.
  - exfalso. rewrite Hmean in H. lra.
  - exfalso. rewrite Hmean in H. lra.
  - ring.
Qed.

(** The two scores of lines 574 to 596, in the specification's terms. *)
Lemma recession_score_spec (h : gmap string DailyRecord) (base_index : Q)
    (acceleration_data : option AccelerationData) (seasonal_factor : Q) :
  let pre := base_term base_index + acceleration_term acceleration_data
             + historical_term h base_index in
  (recession_score h base_index acceleration_data seasonal_factor).1 == pre /\
  (recession_score h base_index acceleration_data seasonal_factor).2
    == clamp (pre * seasonal_factor) 0 100.
Proof.
  intros pre.
  assert (Hpre : (recession_score h base_index acceleration_data seasonal_factor).1
                 == pre).
  { unfold recession_score. cbv zeta. cbn [fst].
    rewrite historical_step, acceleration_step, py_min_Qmin.
    subst pre. unfold base_term. ring. }
  split; [exact Hpre|].
  unfold clamp. rewrite <- Hpre. unfold recession_score. cbv zeta. cbn [fst snd].
  apply py_clamp_spec.
Qed.

(** The probability and the level of the result come from the score. *)
Lemma probability_of_score (h : gmap string DailyRecord) (now : datetime)
    (problem_data : ProblemData) :
  let score :=
    (recession_score h
       (wr_index (calculate_weighted_index h now problem_data))
       (calculate_acceleration h default_days)
       (analyze_seasonal_pattern now).1).2 in
  let r := calculate_recession_probability h now problem_data in
  rr_probability r = Py.round score 1 /\
  (rr_level r, rr_conclusion r, rr_action r) = risk_level score /\
  rr_base_index r =
    Py.round (wr_index (calculate_weighted_index h now problem_data)) 2.
Proof.
  cbv zeta. unfold calculate_recession_probability.
  destruct (analyze_seasonal_pattern now) as [factor desc]. cbn [fst].
  destruct (recession_score _ _ _ _) as [original score]. cbn [snd].
  destruct (risk_level score) as [[level conclusion] action].
  repeat split.
Qed.


(** C4. Whatever the base index (of either sign), with or without an
    acceleration result, for a history of any size and any seasonal factor,
    the score rounded to one decimal lies between 0 and 100; so does the
    probability of the result, whatever the day's input, the history and
    the clock. *)
Theorem risk_probability_in_range (h : gmap string DailyRecord) (base_index : Q)
    (acceleration_data : option AccelerationData) (seasonal_factor : Q)
    (now : datetime) (problem_data : ProblemData) :
  0 <= Py.round (recession_score h base_index acceleration_data seasonal_factor).2 1
    <= 100 /\
  0 <= rr_probability (calculate_recession_probability h now problem_data) <= 100.
Proof.
  assert (Hscore : forall b a f, 0 <= Py.round (recession_score h b a f).2 1 <= 100).
  { intros b a f. apply round_1_bounds. unfold recession_score. cbv zeta. cbn [snd].
    apply py_clamp_bounds. lra. }
  split; [apply Hscore|].
  destruct (probability_of_score h now problem_data) as [-> _]. apply Hscore.
Qed.

End Scorer.

(* ===================================================================== *)
(** * The weighted index *)
(* ===================================================================== *)

Section WeightedIndex.

Import Datetime Enhanced Spec Examples.
Local Open Scope Q_scope.

Lemma scan_yesterday_find (ps : list StoredProblem) (s : string) :
  scan_yesterday ps s =
    match List.find (fun p => bool_decide (sp_slug p = Some s)) ps with
    | Some y => default 0%Z (sp_total_submission y)
    | None => 0%Z
    end.
Proof.
  induction ps as [|p ps IH]; [reflexivity|]. cbn.
  case_decide as Hp.
  - by rewrite bool_decide_eq_true_2.
  - by rewrite bool_decide_eq_false_2.
Qed.

Lemma yesterday_total_snapshot (yesterday_data : option DailyRecord) (s : string) :
  yesterday_total_of yesterday_data s =
    match same_slug_snapshot yesterday_data s with
    | Some y => default 0%Z (sp_total_submission y)
    | None => 0%Z
    end.
Proof.
  unfold yesterday_total_of, same_slug_snapshot.
  destruct yesterday_data as [rec|]; [|reflexivity]. cbn.
  destruct (dr_problems rec) as [ps|]; [|reflexivity]. cbn.
  apply scan_yesterday_find.
Qed.

Lemma increment_of_amended (yesterday_data : option DailyRecord) (p : Problem) :
  increment_of yesterday_data p = amended_increment yesterday_data p.
Proof.
  unfold increment_of, amended_increment. rewrite yesterday_total_snapshot.
  destruct (same_slug_snapshot yesterday_data (slug p)) as [y|].
  - case_decide as Hy.
    + by destruct (Z.ltb_spec 0 (default 0%Z (sp_total_submission y))); [|lia].
    + by destruct (Z.ltb_spec 0 (default 0%Z (sp_total_submission y))); [lia|].
  - reflexivity.
Qed.


Lemma total_cons (x : Q) (l : list Q) : total (x :: l) = x + total l.
Proof. reflexivity. Qed.







End WeightedIndex.

(* ===================================================================== *)
(** * The cycle: scoring, storing, saving *)
(* ===================================================================== *)

Section Cycle.

Import Datetime Enhanced Spec Examples.
Local Open Scope Q_scope.

Lemma append_problem_insert (today : string) (x : StoredProblem) (rec : DailyRecord)
    (m : gmap string DailyRecord) :
  append_problem today x (<[today := rec]> m) =
    <[today := {| dr_index := dr_index rec; dr_probability := dr_probability rec;
                  dr_problems := (fun l => l ++ [x]) <$> dr_problems rec |}]> m.
Proof. unfold append_problem. by rewrite alter_insert_eq. Qed.

(** The inner loop of lines 662 to 667 appends the snapshots in order. *)
Lemma store_problems (today : string) (i p : Q) (l : list StoredProblem)
    (problems : list Problem) (m : gmap string DailyRecord) :
  fold_left (fun m x => append_problem today (stored_problem x) m) problems
    (<[today := {| dr_index := i; dr_probability := p; dr_problems := Some l |}]> m) =
  <[today := {| dr_index := i; dr_probability := p;
                dr_problems := Some (l ++ (stored_problem <$> problems)) |}]> m.
Proof.
  revert l. induction problems as [|x xs IH]; intros l.
  - cbn. by rewrite app_nil_r.
  - cbn [fold_left]. rewrite append_problem_insert. cbn.
    rewrite IH, <- app_assoc. reflexivity.
Qed.

(** The loop of lines 660 to 667 stores the problems of every tier. *)
Lemma store_tiers (today : string) (i p : Q) (l : list StoredProblem)
    (problem_data : ProblemData) (m : gmap string DailyRecord) :
  fold_left (store_step today) problem_data
    (<[today := {| dr_index := i; dr_probability := p; dr_problems := Some l |}]> m) =
  <[today := {| dr_index := i; dr_probability := p;
                dr_problems :=
                  Some (l ++ (stored_problem <$> (item ← tiers problem_data; item.2))) |}]> m.
Proof.
  revert l. induction problem_data as [|[difficulty problems] pd IH]; intros l.
  - cbn. by rewrite app_nil_r.
  - cbn [fold_left]. unfold store_step at 2, tiers. rewrite filter_cons. cbn [fst].
    destruct (decide (difficulty <> "timestamp")) as [Hd|Hd].
    + rewrite store_problems, IH, bind_cons, fmap_app, app_assoc. reflexivity.
    + rewrite IH. reflexivity.
Qed.

(** The history in memory after a cycle: the former one with the day's
    record under today's date. *)
Lemma collect_and_analyze_history (problem_data : ProblemData) (now : datetime)
    (io : WriteOutcome) (w : World) :
  daily_indices (collect_and_analyze problem_data now io w).2 =
    <[strftime_ymd now :=
        day_record (calculate_recession_probability (daily_indices w) now problem_data)
                   problem_data]> (daily_indices w).
Proof.
  unfold collect_and_analyze. cbv zeta. cbn [daily_indices disk log].
  rewrite store_tiers. destruct io; reflexivity.
Qed.

(** What a cycle returns. *)
Lemma collect_and_analyze_returns (problem_data : ProblemData) (now : datetime)
    (io : WriteOutcome) (w : World) :
  (collect_and_analyze problem_data now io w).1 =
    Returned (calculate_recession_probability (daily_indices w) now problem_data,
              problem_data).
Proof. unfold collect_and_analyze. cbv zeta. destruct io; reflexivity. Qed.







(** The first example of the specification: an empty history and one easy
    problem of weight 0.3 with 1,000,000 submissions give the increment
    10,000, the raw score 3,000, the base index 0.003, the score
    0.12 * seasonal factor, and the level of the lowest risk. *)
Example first_run_of_the_specification :
  let input := [("easy", [two_sum 1000000])] in
  let weighted := calculate_weighted_index ∅ march_10 input in
  let result := calculate_recession_probability ∅ march_10 input in
  increment_of None (two_sum 1000000) = 10000%Z /\
  wr_raw_score weighted == 3000 /\
  wr_index weighted == 3 # 1000 /\
  (recession_score ∅ (wr_index weighted) None (13 # 10)).2 == (12 # 100) * (13 # 10) /\
  rr_acceleration result = None /\
  rr_level result = "安全".
Proof. vm_compute. repeat split. Qed.

(** A second cycle on the same date reads the record the first one stored:
    with the same input the base index it stores is the same, the
    probability is not. *)
Example second_cycle_reads_first :
  let w1 := (collect_and_analyze busy_day_input march_10 WriteOk empty_world).2 in
  let w2 := (collect_and_analyze busy_day_input march_10 WriteOk w1).2 in
  dr_index (daily_indices w1 !!! "2024-03-10") = dr_index (daily_indices w2 !!! "2024-03-10") /\
  dr_probability (daily_indices w1 !!! "2024-03-10") == 9 # 10 /\
  dr_probability (daily_indices w2 !!! "2024-03-10") == 243 # 10.
Proof. vm_compute. repeat split. Qed.

(** C8, as the code has it. When the write of the history file fails,
    [save_history] catches the exception and logs it at level ERROR; it
    returns as it does on success, so that the caller of the cycle is handed
    the same result and finds the same history in memory as after a
    successful write: the history of the cycle, with the day's record, which
    the failed write has not touched. *)
Theorem write_failure_logged_not_raised (problem_data : ProblemData) (now : datetime)
    (e : string) (left_on_disk : option (gmap string DailyRecord)) (w : World) :
  let ok := collect_and_analyze problem_data now WriteOk w in
  let ko := collect_and_analyze problem_data now (WriteError e left_on_disk) w in
  (exists lines,
     log ko.2 =
       log w ++ lines ++
       [{| lr_level := ERROR; lr_message := "保存历史数据失败: " +:+ e |}]) /\
  caller_view ko = caller_view ok /\
  ko.1 = Returned (calculate_recession_probability (daily_indices w) now problem_data,
                   problem_data) /\
  daily_indices ko.2 =
    <[strftime_ymd now :=
        day_record (calculate_recession_probability (daily_indices w) now problem_data)
                   problem_data]> (daily_indices w) /\
  disk ko.2 = left_on_disk /\
  disk ok.2 = Some (daily_indices ok.2) /\
  (forall data,
     (save_history data (WriteError e left_on_disk) w).1 = Returned tt /\
     daily_indices (save_history data (WriteError e left_on_disk) w).2 = daily_indices w).
Proof.
  intros ok ko. subst ok ko.
  split.
  { eexists [_]. unfold collect_and_analyze. cbv zeta. cbn.
    by rewrite <- app_assoc. }
  split.
  { unfold caller_view.
    by rewrite !collect_and_analyze_returns, !collect_and_analyze_history. }
  split; [apply collect_and_analyze_returns|].
  split; [apply collect_and_analyze_history|].
  split; [reflexivity|]. split; [reflexivity|].
  intros data. split; reflexivity.
Qed.

(** C8, as the specification states it, fails on the code: a failed write
    is not reported to the caller. With a disk that answers "No space left
    on device", the caller of the cycle is handed exactly what it is handed
    when the write succeeds. *)
Lemma write_failure_not_reported_to_caller :
  caller_view (collect_and_analyze first_run_input march_10
                 (WriteError "No space left on device" None) empty_world) =
  caller_view (collect_and_analyze first_run_input march_10 WriteOk empty_world).
Proof.
  unfold caller_view.
  by rewrite !collect_and_analyze_returns, !collect_and_analyze_history.
Qed.


End Cycle.

(* ===================================================================== *)
(** * Further properties of the risk scorer *)
(* ===================================================================== *)

Section ScoreBounds.

Import Datetime Enhanced Spec.
Local Open Scope Q_scope.

Lemma round_half_even_le (y : Q) (b : Z) :
  y <= inject_Z b -> (Py.round_half_even y <= b)%Z.
Proof.
  intros Hb.
  assert (Hfb : (Qfloor y <= b)%Z).
  { rewrite <- (Qfloor_Z b). by apply Qfloor_resp_le. }
  assert (Hup : 1 # 2 <= y - inject_Z (Qfloor y) -> (Qfloor y + 1 <= b)%Z).
  { intros Hr. assert (inject_Z (Qfloor y) < inject_Z b) as Hlt by lra.
    rewrite <- Zlt_Qlt in Hlt. lia. }
  unfold Py.round_half_even.
  destruct (Qltb_reflect (y - inject_Z (Qfloor y)) (1 # 2)) as [Hr|Hr]; [lia|].
  apply Qnot_lt_le in Hr. specialize (Hup Hr).
  destruct (Py.Qltb _ _); [lia|]. destruct (Z.even _); lia.
Qed.

Lemma round_half_even_ge (y : Q) (a : Z) :
  inject_Z a <= y -> (a <= Py.round_half_even y)%Z.
Proof.
  intros Ha.
  assert (Hfa : (a <= Qfloor y)%Z).
  { rewrite <- (Qfloor_Z a). by apply Qfloor_resp_le. }
  unfold Py.round_half_even.
  destruct (Py.Qltb _ _); [lia|].
  destruct (Py.Qltb _ _); [lia|]. destruct (Z.even _); lia.
Qed.

(** [round(x, 1)] does not cross a whole number. *)
Lemma round_1_le (x : Q) (k : Z) : x <= inject_Z k -> Py.round x 1 <= inject_Z k.
Proof.
  intros Hk. unfold Py.round.
  change (inject_Z (10 ^ Z.of_nat 1)) with 10.
  pose proof (round_half_even_le (x * 10) (k * 10)) as Hr.
  rewrite inject_Z_mult in Hr. change (inject_Z 10) with 10 in Hr.
  assert (Hle : (Py.round_half_even (x * 10) <= k * 10)%Z) by (apply Hr; lra).
  rewrite Zle_Qle, inject_Z_mult in Hle. change (inject_Z 10) with 10 in Hle.
  apply Qle_shift_div_r; lra.
Qed.

Lemma round_1_ge (x : Q) (k : Z) : inject_Z k <= x -> inject_Z k <= Py.round x 1.
Proof.
  intros Hk. unfold Py.round.
  change (inject_Z (10 ^ Z.of_nat 1)) with 10.
  pose proof (round_half_even_ge (x * 10) (k * 10)) as Hr.
  rewrite inject_Z_mult in Hr. change (inject_Z 10) with 10 in Hr.
  assert (Hle : (k * 10 <= Py.round_half_even (x * 10))%Z) by (apply Hr; lra).
  rewrite Zle_Qle, inject_Z_mult in Hle. change (inject_Z 10) with 10 in Hle.
  apply Qle_shift_div_l; lra.
Qed.

(** The fields of the result that copy an intermediate value. *)
Lemma result_fields (h : gmap string DailyRecord) (now : datetime)
    (problem_data : ProblemData) :
  let r := calculate_recession_probability h now problem_data in
  rr_seasonal_factor r = (analyze_seasonal_pattern now).1 /\
  rr_season_desc r = (analyze_seasonal_pattern now).2 /\
  rr_acceleration r = calculate_acceleration h default_days /\
  rr_details r = wr_details (calculate_weighted_index h now problem_data).
Proof.
  cbv zeta. unfold calculate_recession_probability.
  destruct (analyze_seasonal_pattern now) as [factor desc].
  destruct (recession_score _ _ _ _) as [original score].
  destruct (risk_level score) as [[level conclusion] action].
  repeat split.
Qed.

Lemma recession_score_clamped (h : gmap string DailyRecord) (b : Q)
    (a : option AccelerationData) (f : Q) :
  0 <= (recession_score h b a f).2 <= 100.
Proof.
  unfold recession_score. cbv zeta. cbn [snd]. apply py_clamp_bounds. lra.
Qed.

(** An upper bound of the sum before the seasonal scaling bounds the score. *)
Lemma recession_score_le (h : gmap string DailyRecord) (b : Q)
    (a : option AccelerationData) (f bound : Q) :
  0 <= f -> 0 <= bound ->
  base_term b + acceleration_term a + historical_term h b <= bound ->
  (recession_score h b a f).2 <= bound * f.
Proof.
  intros Hf Hb Hpre.
  destruct (recession_score_spec h b a f) as [_ ->]. unfold clamp.
  eapply Qle_trans; [apply Q.le_min_l|].
  apply Q.max_lub; [|by apply Qmult_le_0_compat].
  by apply Qmult_le_compat_r.
Qed.

Lemma risk_level_below (score : Q) :
  (score <= 80 -> (risk_level score).1.1 <> "高危") /\
  (score <= 60 -> (risk_level score).1.1 <> "高危" /\ (risk_level score).1.1 <> "预警").
Proof.
  unfold risk_level. split.
  - intros H. destruct (Qltb_reflect 80 score) as [?|_]; [exfalso; lra|].
    repeat destruct (Py.Qltb _ score); cbn; discriminate.
  - intros H. destruct (Qltb_reflect 80 score) as [?|_]; [exfalso; lra|].
    destruct (Qltb_reflect 60 score) as [?|_]; [exfalso; lra|].
    repeat destruct (Py.Qltb _ score); cbn; split; discriminate.
Qed.

Lemma rr_level_of_score (h : gmap string DailyRecord) (now : datetime)
    (problem_data : ProblemData) :
  rr_level (calculate_recession_probability h now problem_data) =
    (risk_level
       (recession_score h
          (wr_index (calculate_weighted_index h now problem_data))
          (calculate_acceleration h default_days)
          (analyze_seasonal_pattern now).1).2).1.1.
Proof.
  destruct (probability_of_score h now problem_data) as (_ & Hl & _).
  cbv zeta in Hl. by rewrite <- Hl.
Qed.

Lemma seasonal_factor_cases (now : datetime) :
  (analyze_seasonal_pattern now).1 = 13 # 10 \/ (analyze_seasonal_pattern now).1 = 8 # 10.
Proof.
  unfold analyze_seasonal_pattern. destruct (existsb _ _); [by left | by right].
Qed.

Lemma seasonal_factor_off (now : datetime) :
  month now ∉ [3; 4; 9; 10]%Z -> (analyze_seasonal_pattern now).1 = 8 # 10.
Proof.
  intros Hm. unfold analyze_seasonal_pattern, hiring_seasons.
  cbn [fmap list_fmap snd existsb].
  repeat case_bool_decide; cbn [orb fst]; try reflexivity; exfalso; apply Hm;
    rewrite ?elem_of_cons, ?elem_of_nil in *; intuition lia.
Qed.

Lemma pre_seasonal_le_90 (h : gmap string DailyRecord) (b : Q)
    (a : option AccelerationData) :
  base_term b + acceleration_term a + historical_term h b <= 90.
Proof.
  pose proof (base_term_le b). pose proof (acceleration_term_bounds a).
  pose proof (historical_term_le h b). lra.
Qed.

(** X1. Outside the hiring seasons the factor 0.8 caps the score at 72: the
    probability never exceeds 72 and the level is never the critical one. *)
Theorem off_season_never_critical (h : gmap string DailyRecord) (now : datetime)
    (problem_data : ProblemData) :
  month now ∉ [3; 4; 9; 10]%Z ->
  let r := calculate_recession_probability h now problem_data in
  rr_seasonal_factor r = 8 # 10 /\
  rr_probability r <= 72 /\
  rr_level r <> "高危".
Proof.
  intros Hm r. subst r.
  destruct (result_fields h now problem_data) as (Hf & _).
  destruct (probability_of_score h now problem_data) as (Hp & _).
  cbv zeta in Hf, Hp. rewrite Hf, Hp, rr_level_of_score.
  rewrite (seasonal_factor_off now Hm).
  set (b := wr_index _). set (a := calculate_acceleration _ _).
  assert (Hs : (recession_score h b a (8 # 10)).2 <= 72).
  { eapply Qle_trans; [apply (recession_score_le h b a (8 # 10) 90)|]; try lra.
    apply pre_seasonal_le_90. }
  split; [reflexivity|]. split.
  - apply (round_1_le _ 72). exact Hs.
  - apply (proj1 (risk_level_below _)). apply Qle_trans with 72; [exact Hs | lra].
Qed.


Lemma calculate_acceleration_short (h : gmap string DailyRecord) (days : Z) :
  (Z.of_nat (size h) < days)%Z -> calculate_acceleration h days = None.
Proof.
  intros Hlt. unfold calculate_acceleration.
  by destruct (Z.ltb_spec (Z.of_nat (size h)) days) as [_|?]; [|lia].
Qed.

Lemma historical_term_empty (b : Q) : historical_term ∅ b = 0.
Proof. unfold historical_term. by rewrite decide_True. Qed.

(** X2. With fewer than 14 recorded days there is no acceleration result, the
    probability is at most 78 and the level is never the critical one; on
    an empty history the probability is at most 52 and the level is neither
    the critical nor the warning one. *)
Theorem short_history_bounds (h : gmap string DailyRecord) (now : datetime)
    (problem_data : ProblemData) :
  (size h < 14)%nat ->
  let r := calculate_recession_probability h now problem_data in
  rr_acceleration r = None /\
  rr_probability r <= 78 /\
  rr_level r <> "高危" /\
  (h = ∅ ->
   rr_probability r <= 52 /\ rr_level r <> "高危" /\ rr_level r <> "预警").
Proof.
  intros Hsize r. subst r.
  destruct (result_fields h now problem_data) as (_ & _ & Ha & _).
  destruct (probability_of_score h now problem_data) as (Hp & _).
  cbv zeta in Ha, Hp. rewrite Ha, Hp, rr_level_of_score.
  rewrite (calculate_acceleration_short h default_days) by (unfold default_days; lia).
  set (b := wr_index _). set (f := (analyze_seasonal_pattern now).1).
  assert (Hf : 0 <= f /\ f <= 13 # 10).
  { subst f. destruct (seasonal_factor_cases now) as [-> | ->]; lra. }
  assert (Hs : (recession_score h b None f).2 <= 78).
  { eapply Qle_trans; [apply (recession_score_le h b None f 60)|]; try lra.
    pose proof (base_term_le b). pose proof (historical_term_le h b).
    cbn [acceleration_term]. lra. }
  split; [reflexivity|]. split; [apply (round_1_le _ 78); exact Hs|].
  split.
  { apply (proj1 (risk_level_below _)). apply Qle_trans with 78; [exact Hs | lra]. }
  intros ->.
  assert (Hs' : (recession_score ∅ b None f).2 <= 52).
  { eapply Qle_trans; [apply (recession_score_le ∅ b None f 40)|]; try lra.
    pose proof (base_term_le b). rewrite historical_term_empty.
    cbn [acceleration_term]. lra. }
  split; [apply (round_1_le _ 52); exact Hs'|].
  apply (proj2 (risk_level_below _)). apply Qle_trans with 52; [exact Hs' | lra].
Qed.

Lemma short_history_bounds_witness :
  let r := calculate_recession_probability Examples.zero_baseline_history
             Examples.march_10 Examples.second_day_input in
  rr_acceleration r = None /\
  rr_probability r <= 78 /\
  rr_level r <> "高危" /\
  (Examples.zero_baseline_history = ∅ ->
   rr_probability r <= 52 /\ rr_level r <> "高危" /\ rr_level r <> "预警").
Proof.
  apply (short_history_bounds Examples.zero_baseline_history Examples.march_10
           Examples.second_day_input).
  vm_compute. lia.
Defined.

Lemma off_season_never_critical_witness :
  let r := calculate_recession_probability Examples.rising_history
             (Examples.january 15) Examples.first_run_input in
  rr_seasonal_factor r = 8 # 10 /\
  rr_probability r <= 72 /\
  rr_level r <> "高危".
Proof.
  apply (off_season_never_critical Examples.rising_history (Examples.january 15)
           Examples.first_run_input).
  cbn. rewrite !elem_of_cons, elem_of_nil. intuition lia.
Defined.


Lemma base_term_nonpos (b : Q) : b <= 0 -> base_term b <= 0.
Proof.
  intros Hb. unfold base_term. eapply Qle_trans; [apply Q.le_min_l|]. lra.
Qed.

Lemma historical_term_nonpos (h : gmap string DailyRecord) (b : Q) :
  b <= 0 -> historical_term h b <= 0.
Proof.
  intros Hb. unfold historical_term. destruct (decide (h = ∅)); [lra|].
  cbv zeta. destruct (Qlt_le_dec 0 _) as [Havg|_]; [|lra].
  eapply Qle_trans; [apply Q.le_min_l|].
  assert (b / mean (recorded_indices h) <= 0) by (apply Qle_shift_div_r; lra).
  lra.
Qed.

Lemma acceleration_term_nonpos (a : option AccelerationData) :
  (forall d, a = Some d -> acceleration d <= 0) -> acceleration_term a = 0.
Proof.
  intros Ha. unfold acceleration_term. destruct a as [d|]; [|reflexivity].
  destruct (Qlt_le_dec 0 (acceleration d)) as [Hpos|_]; [|reflexivity].
  specialize (Ha d eq_refl). exfalso. lra.
Qed.

Lemma risk_level_safe (score : Q) :
  score <= 20 -> risk_level score = risk_table Safe.
Proof.
  intros H. unfold risk_level.
  destruct (Qltb_reflect 80 score); [exfalso; lra|].
  destruct (Qltb_reflect 60 score); [exfalso; lra|].
  destruct (Qltb_reflect 40 score); [exfalso; lra|].
  destruct (Qltb_reflect 20 score); [exfalso; lra|]. reflexivity.
Qed.

(** X3. When the base index is not positive (the submissions did not grow) and
    the trend, if there is one, does not accelerate, the probability is 0
    and the level is the safe one, whatever the history and the season. *)
Theorem no_growth_no_risk (h : gmap string DailyRecord) (now : datetime)
    (problem_data : ProblemData) :
  wr_index (calculate_weighted_index h now problem_data) <= 0 ->
  (forall d, calculate_acceleration h default_days = Some d -> acceleration d <= 0) ->
  let r := calculate_recession_probability h now problem_data in
  rr_probability r == 0 /\
  (rr_level r, rr_conclusion r, rr_action r) = risk_table Safe.
Proof.
  intros Hb Ha r. subst r.
  destruct (probability_of_score h now problem_data) as (Hp & Hl & _).
  cbv zeta in Hp, Hl. rewrite Hp, Hl.
  set (b := wr_index _) in *. set (a := calculate_acceleration _ _) in *.
  set (f := (analyze_seasonal_pattern now).1).
  assert (Hf : 0 <= f).
  { subst f. destruct (seasonal_factor_cases now) as [-> | ->]; lra. }
  assert (Hs : (recession_score h b a f).2 <= 0).
  { eapply Qle_trans; [apply (recession_score_le h b a f 0)|]; try lra.
    pose proof (base_term_nonpos b Hb). pose proof (historical_term_nonpos h b Hb).
    rewrite (acceleration_term_nonpos a Ha). lra. }
  pose proof (recession_score_clamped h b a f) as [Hs0 _].
  split.
  - apply Qle_antisym.
    + apply (round_1_le _ 0). exact Hs.
    + apply (round_1_ge _ 0). exact Hs0.
  - apply risk_level_safe. lra.
Qed.

Lemma no_growth_no_risk_witness :
  let r := calculate_recession_probability ∅ Examples.march_10
             [("easy", [Examples.two_sum 0])] in
  rr_probability r == 0 /\
  (rr_level r, rr_conclusion r, rr_action r) = risk_table Safe.
Proof.
  apply (no_growth_no_risk ∅ Examples.march_10 [("easy", [Examples.two_sum 0])]).
  - vm_compute. discriminate.
  - vm_compute. discriminate.
Defined.

Lemma round_half_even_mono (x y : Q) :
  x <= y -> (Py.round_half_even x <= Py.round_half_even y)%Z.
Proof.
  intros Hxy.
  pose proof (Qfloor_resp_le x y Hxy) as Hf.
  pose proof (Qfloor_le x) as Hx1. pose proof (Qlt_floor x) as Hx2.
  pose proof (Qfloor_le y) as Hy1. pose proof (Qlt_floor y) as Hy2.
  rewrite inject_Z_plus in Hx2, Hy2. change (inject_Z 1) with 1 in Hx2, Hy2.
  destruct (Z.eq_dec (Qfloor x) (Qfloor y)) as [Heq|Hne].
  - unfold Py.round_half_even. rewrite <- Heq in *.
    destruct (Qltb_reflect (x - inject_Z (Qfloor x)) (1 # 2)) as [H1|H1];
      destruct (Qltb_reflect (y - inject_Z (Qfloor x)) (1 # 2)) as [H2|H2];
      try lia; try (exfalso; lra).
    + destruct (Py.Qltb _ _); [lia|]. destruct (Z.even _); lia.
    + destruct (Qltb_reflect (1 # 2) (x - inject_Z (Qfloor x))) as [H3|H3];
        destruct (Qltb_reflect (1 # 2) (y - inject_Z (Qfloor x))) as [H4|H4];
        try lia; try (exfalso; lra).
      destruct (Z.even _); lia.
  - assert (Hlt : (Qfloor x + 1 <= Qfloor y)%Z) by lia.
    assert (Hux : (Py.round_half_even x <= Qfloor x + 1)%Z).
    { unfold Py.round_half_even.
      destruct (Py.Qltb _ _); [lia|]. destruct (Py.Qltb _ _); [lia|].
      destruct (Z.even _); lia. }
    assert (Hly : (Qfloor y <= Py.round_half_even y)%Z).
    { unfold Py.round_half_even.
      destruct (Py.Qltb _ _); [lia|]. destruct (Py.Qltb _ _); [lia|].
      destruct (Z.even _); lia. }
    lia.
Qed.

Lemma round_mono (x y : Q) (ndigits : nat) :
  x <= y -> Py.round x ndigits <= Py.round y ndigits.
Proof.
  intros Hxy. unfold Py.round.
  assert (Hpos : 0 < inject_Z (10 ^ Z.of_nat ndigits)).
  { change 0 with (inject_Z 0). rewrite <- Zlt_Qlt. apply Z.pow_pos_nonneg; lia. }
  set (scale := inject_Z _) in *.
  apply Qmult_le_compat_r; [|by apply Qlt_le_weak, Qinv_lt_0_compat].
  rewrite <- Zle_Qle. apply round_half_even_mono.
  by apply Qmult_le_compat_r; [|apply Qlt_le_weak].
Qed.

Lemma historical_term_mono (h : gmap string DailyRecord) (b b' : Q) :
  b <= b' -> historical_term h b <= historical_term h b'.
Proof.
  intros Hb. unfold historical_term. destruct (decide (h = ∅)); [lra|].
  cbv zeta. destruct (Qlt_le_dec 0 _) as [Havg|_]; [|lra].
  apply Q.min_le_compat_r. apply Qmult_le_compat_r; [|lra].
  apply Qmult_le_compat_r; [exact Hb|].
  by apply Qlt_le_weak, Qinv_lt_0_compat.
Qed.

(** X4. A larger base index never gives a smaller score, nor a smaller
    displayed probability, all else equal (history, acceleration result and
    a seasonal factor that is not negative). *)
Theorem score_monotone_in_base_index (h : gmap string DailyRecord)
    (a : option AccelerationData) (f b b' : Q) :
  0 <= f -> b <= b' ->
  (recession_score h b a f).2 <= (recession_score h b' a f).2 /\
  Py.round (recession_score h b a f).2 1 <= Py.round (recession_score h b' a f).2 1.
Proof.
  intros Hf Hb.
  assert (Hs : (recession_score h b a f).2 <= (recession_score h b' a f).2).
  { destruct (recession_score_spec h b a f) as [_ ->].
    destruct (recession_score_spec h b' a f) as [_ ->].
    unfold clamp. apply Q.min_le_compat_r, Q.max_le_compat_r.
    apply Qmult_le_compat_r; [|exact Hf].
    pose proof (historical_term_mono h b b' Hb).
    assert (base_term b <= base_term b').
    { unfold base_term. apply Q.min_le_compat_r. lra. }
    lra. }
  split; [exact Hs | by apply round_mono].
Qed.

Lemma score_monotone_in_base_index_witness :
  (recession_score Examples.rising_history (1 # 2) None (13 # 10)).2
    <= (recession_score Examples.rising_history (3 # 4) None (13 # 10)).2 /\
  Py.round (recession_score Examples.rising_history (1 # 2) None (13 # 10)).2 1
    <= Py.round (recession_score Examples.rising_history (3 # 4) None (13 # 10)).2 1.
Proof.
  apply (score_monotone_in_base_index Examples.rising_history None (13 # 10)
           (1 # 2) (3 # 4)); lra.
Defined.

Lemma risk_level_of_level (score : Q) (l : RiskLevel) :
  level_of score l -> risk_level score = risk_table l.
Proof.
  intros Hl. unfold risk_level.
  destruct Hl as [s H|s H H'|s H H'|s H H'|s H];
    repeat match goal with
      | |- context [Py.Qltb ?k s] =>
          destruct (Qltb_reflect k s); try (exfalso; lra)
      end; reflexivity.
Qed.

(** X5. The level is decided on the score before it is rounded. It is the
    level of the displayed probability whenever that probability is not
    exactly a boundary (20, 40, 60 or 80); on a boundary it may be the
    level above, as for the score 80.04, displayed as 80.0 and critical. *)
Theorem level_of_displayed_probability (h : gmap string DailyRecord) (now : datetime)
    (problem_data : ProblemData) (l : RiskLevel) :
  let r := calculate_recession_probability h now problem_data in
  ~ rr_probability r == 20 -> ~ rr_probability r == 40 ->
  ~ rr_probability r == 60 -> ~ rr_probability r == 80 ->
  level_of (rr_probability r) l ->
  (rr_level r, rr_conclusion r, rr_action r) = risk_table l /\
  (Py.round (8004 # 100) 1 == 80 /\ risk_level (8004 # 100) = risk_table Critical).
Proof.
  intros r H20 H40 H60 H80 Hl. subst r.
  destruct (probability_of_score h now problem_data) as (Hp & Hrl & _).
  cbv zeta in Hp, Hrl. rewrite Hp in *. rewrite Hrl. clear Hp Hrl.
  set (s := (recession_score _ _ _ _).2) in *.
  split; [|split; [reflexivity | by vm_compute]].
  apply risk_level_of_level.
  assert (Hup : forall k : Z, inject_Z k < Py.round s 1 -> inject_Z k < s).
  { intros k Hk. apply Qnot_le_lt. intros Hle.
    pose proof (round_1_le s k Hle). lra. }
  assert (Hdown : forall k : Z, Py.round s 1 < inject_Z k -> s < inject_Z k).
  { intros k Hk. apply Qnot_le_lt. intros Hle.
    pose proof (round_1_ge s k Hle). lra. }
  inversion Hl as [p H|p H H'|p H H'|p H H'|p H]; subst.
  - constructor. by apply (Hup 80%Z).
  - constructor; [by apply (Hup 60%Z)|].
    apply Qlt_le_weak, (Hdown 80%Z). change (inject_Z 80) with 80. lra.
  - constructor; [by apply (Hup 40%Z)|].
    apply Qlt_le_weak, (Hdown 60%Z). change (inject_Z 60) with 60. lra.
  - constructor; [by apply (Hup 20%Z)|].
    apply Qlt_le_weak, (Hdown 40%Z). change (inject_Z 40) with 40. lra.
  - constructor.
    apply Qlt_le_weak, (Hdown 20%Z). change (inject_Z 20) with 20. lra.
Qed.

Lemma level_of_displayed_probability_witness :
  let r := calculate_recession_probability ∅ Examples.march_10
             Examples.first_run_input in
  (rr_level r, rr_conclusion r, rr_action r) = risk_table Safe /\
  (Py.round (8004 # 100) 1 == 80 /\ risk_level (8004 # 100) = risk_table Critical).
Proof.
  apply (level_of_displayed_probability ∅ Examples.march_10
           Examples.first_run_input Safe).
  - vm_compute. discriminate.
  - vm_compute. discriminate.
  - vm_compute. discriminate.
  - vm_compute. discriminate.
  - constructor. vm_compute. discriminate.
Defined.

End ScoreBounds.

(* ===================================================================== *)
(** * Further properties of the trend analyzer *)
(* ===================================================================== *)

Section TrendMore.

Import Datetime Enhanced Spec.
Local Open Scope Q_scope.

Lemma length_slice_from_last {A} (l : list A) (n : Z) :
  (0 < n <= Z.of_nat (length l))%Z -> length (Py.slice_from l (- n)) = Z.to_nat n.
Proof.
  intros Hn. rewrite slice_from_last by done. unfold last_n.
  rewrite length_drop. lia.
Qed.

(** X7. A window of one or two days has no second difference: whatever the
    history, the answer is the acceleration 0 with the labels of a flat
    trend. *)
Theorem tiny_window_is_flat (h : gmap string DailyRecord) (days : Z) :
  (1 <= days <= 2)%Z -> (days <= Z.of_nat (size h))%Z ->
  calculate_acceleration h days =
    Some {| acceleration := 0; trend := "平稳"; severity := "正常" |}.
Proof.
  intros Hd Hsize. unfold calculate_acceleration.
  destruct (Z.ltb_spec (Z.of_nat (size h)) days) as [?|_]; [lia|].
  rewrite !derivative_float_diffs.
  set (indices := _ <$> Py.slice_from _ _).
  assert (Hlen : (length indices <= 2)%nat).
  { subst indices. rewrite length_fmap, length_slice_from_last; [lia|].
    rewrite length_sorted, length_keys. lia. }
  destruct indices as [|x [|y [|z l]]]; cbn [length] in Hlen; try lia; reflexivity.
Qed.

Lemma tiny_window_is_flat_witness :
  calculate_acceleration Examples.rising_history 2 =
    Some {| acceleration := 0; trend := "平稳"; severity := "正常" |}.
Proof.
  apply (tiny_window_is_flat Examples.rising_history 2).
  - lia.
  - vm_compute. discriminate.
Defined.

Lemma slice_from_zero {A} (l : list A) : Py.slice_from l 0 = l.
Proof.
  unfold Py.slice_from. change (0 <? 0)%Z with false. cbv iota.
  replace (Z.to_nat _) with O by lia. reflexivity.
Qed.

(** X8. A window that is not positive never gives "no result"; the window 0
    selects the whole history (the slice [[-0:]] is the whole list), so the
    answer is that of a window of the size of the history. *)
Theorem zero_window_is_whole_history (h : gmap string DailyRecord) (days : Z) :
  (days <= 0)%Z ->
  is_Some (calculate_acceleration h days) /\
  calculate_acceleration h 0 = calculate_acceleration h (Z.of_nat (size h)).
Proof.
  intros Hd. split.
  - destruct (calculate_acceleration_enough h days) as (a & _ & Ha & _); [lia|].
    by exists a.
  - unfold calculate_acceleration.
    destruct (Z.ltb_spec (Z.of_nat (size h)) 0) as [?|_]; [lia|].
    destruct (Z.ltb_spec (Z.of_nat (size h)) (Z.of_nat (size h))) as [?|_]; [lia|].
    rewrite (slice_from_all _ (Z.of_nat (size h)))
      by (by rewrite length_sorted, length_keys).
    change (- 0)%Z with 0%Z. by rewrite slice_from_zero.
Qed.

Lemma zero_window_is_whole_history_witness :
  is_Some (calculate_acceleration Examples.rising_history 0) /\
  calculate_acceleration Examples.rising_history 0 =
    calculate_acceleration Examples.rising_history
      (Z.of_nat (size Examples.rising_history)).
Proof. apply (zero_window_is_whole_history Examples.rising_history 0). lia. Defined.

End TrendMore.

(* ===================================================================== *)
(** * Further properties of the cycle *)
(* ===================================================================== *)

Section CycleMore.

Import Datetime Enhanced Spec.
Local Open Scope Q_scope.

(** X9. A restart after a successful write finds in the file the history that
    was in memory, today's record included, and the next cycle returns what
    it would have returned without the restart. After a failed write a
    restart finds what the failure left on the disk. *)
Theorem restart_after_cycle (problem_data : ProblemData) (now : datetime)
    (w : World) (data : gmap string DailyRecord) :
  let w' := (collect_and_analyze problem_data now WriteOk w).2 in
  disk w' = Some data ->
  data = daily_indices w' /\
  data !! strftime_ymd now =
    Some (day_record (calculate_recession_probability (daily_indices w) now problem_data)
                     problem_data) /\
  daily_indices (init_calculator (ReadOk data) w') = daily_indices w' /\
  (forall problem_data2 now2 io2,
     (collect_and_analyze problem_data2 now2 io2 (init_calculator (ReadOk data) w')).1 =
     (collect_and_analyze problem_data2 now2 io2 w').1) /\
  (forall e left_on_disk,
     disk (collect_and_analyze problem_data now (WriteError e left_on_disk) w).2 =
       left_on_disk).
Proof.
  intros w' Hdisk.
  assert (Hdata : data = daily_indices w').
  { subst w'. unfold collect_and_analyze in Hdisk |- *. cbv zeta in Hdisk |- *.
    cbn in Hdisk |- *. congruence. }
  split; [exact Hdata|]. split.
  { rewrite Hdata. subst w'. rewrite collect_and_analyze_history.
    apply lookup_insert_eq. }
  split; [by rewrite Hdata|]. split.
  - intros problem_data2 now2 io2. rewrite !collect_and_analyze_returns.
    by rewrite Hdata.
  - intros e left_on_disk. reflexivity.
Qed.

Lemma restart_after_cycle_witness :
  let w' := (collect_and_analyze Examples.first_run_input Examples.march_10 WriteOk
               Examples.empty_world).2 in
  let data := daily_indices w' in
  data = daily_indices w' /\
  data !! strftime_ymd Examples.march_10 =
    Some (day_record
            (calculate_recession_probability (daily_indices Examples.empty_world)
               Examples.march_10 Examples.first_run_input)
            Examples.first_run_input) /\
  daily_indices (init_calculator (ReadOk data) w') = daily_indices w' /\
  (forall problem_data2 now2 io2,
     (collect_and_analyze problem_data2 now2 io2 (init_calculator (ReadOk data) w')).1 =
     (collect_and_analyze problem_data2 now2 io2 w').1) /\
  (forall e left_on_disk,
     disk (collect_and_analyze Examples.first_run_input Examples.march_10
             (WriteError e left_on_disk) Examples.empty_world).2 =
       left_on_disk).
Proof.
  apply (restart_after_cycle Examples.first_run_input Examples.march_10
           Examples.empty_world).
  reflexivity.
Defined.

Lemma find_stored_problem (s : string) (l : list Problem) :
  List.find (fun y => bool_decide (sp_slug y = Some s)) (stored_problem <$> l) =
    stored_problem <$> List.find (fun p => bool_decide (slug p = s)) l.
Proof.
  induction l as [|p l IH]; [reflexivity|]. cbn.
  destruct (decide (slug p = s)) as [Hs|Hs].
  - by rewrite !bool_decide_eq_true_2 by congruence.
  - rewrite !bool_decide_eq_false_2 by congruence. exact IH.
Qed.

Lemma increment_after_cycle (problem_data : ProblemData) (now now2 : datetime)
    (io : WriteOutcome) (w : World) (p2 : Problem) :
  strftime_ymd (minus_one_day now2) = strftime_ymd now ->
  increment_of
    (daily_indices (collect_and_analyze problem_data now io w).2
       !! strftime_ymd (minus_one_day now2)) p2 =
    match List.find (fun p => bool_decide (slug p = slug p2))
            (item ← tiers problem_data; item.2) with
    | Some p1 =>
        if decide (0 < total_submission p1)%Z
        then (total_submission p2 - total_submission p1)%Z
        else (total_submission p2 `div` 100)%Z
    | None => (total_submission p2 `div` 100)%Z
    end.
Proof.
  intros Hkey.
  rewrite Hkey, collect_and_analyze_history, lookup_insert_eq.
  rewrite increment_of_amended. unfold amended_increment, same_slug_snapshot.
  cbn [mbind option_bind day_record dr_problems]. rewrite find_stored_problem.
  destruct (List.find _ _) as [p1|]; reflexivity.
Qed.

(** X10. The increment of a problem on the day after a cycle is its total minus
    the total that the cycle stored for the same slug (the first problem
    with that slug in the day's tiers) when that total is positive; it is
    the hundredth of its total, rounded down, when the stored total is not
    positive or when the cycle saw no problem with that slug. *)
Theorem next_day_increment (problem_data : ProblemData) (now now2 : datetime)
    (io : WriteOutcome) (w : World) (p2 : Problem) :
  strftime_ymd (minus_one_day now2) = strftime_ymd now ->
  let h' := daily_indices (collect_and_analyze problem_data now io w).2 in
  increment_of (h' !! strftime_ymd (minus_one_day now2)) p2 =
    match List.find (fun p => bool_decide (slug p = slug p2))
            (item ← tiers problem_data; item.2) with
    | Some p1 =>
        if decide (0 < total_submission p1)%Z
        then (total_submission p2 - total_submission p1)%Z
        else (total_submission p2 `div` 100)%Z
    | None => (total_submission p2 `div` 100)%Z
    end.
Proof. intros Hkey h'. by apply increment_after_cycle. Qed.

Lemma next_day_increment_witness :
  let h' := daily_indices
              (collect_and_analyze Examples.busy_day_input (Examples.january 9)
                 WriteOk Examples.empty_world).2 in
  increment_of (h' !! strftime_ymd (minus_one_day (Examples.january 10)))
    (Examples.two_sum 6000700) =
    match List.find
            (fun p => bool_decide (slug p = slug (Examples.two_sum 6000700)))
            (item ← tiers Examples.busy_day_input; item.2) with
    | Some p1 =>
        if decide (0 < total_submission p1)%Z
        then (total_submission (Examples.two_sum 6000700) - total_submission p1)%Z
        else (total_submission (Examples.two_sum 6000700) `div` 100)%Z
    | None => (total_submission (Examples.two_sum 6000700) `div` 100)%Z
    end.
Proof.
  apply (next_day_increment Examples.busy_day_input (Examples.january 9)
           (Examples.january 10) WriteOk Examples.empty_world
           (Examples.two_sum 6000700)).
  reflexivity.
Defined.

End CycleMore.

(* ===================================================================== *)
(** * The panels of the dashboard *)
(* ===================================================================== *)

Section Plots.

Import Datetime Enhanced Spec.
Local Open Scope Q_scope.

Lemma elem_of_keys {A} (h : gmap string A) (d : string) :
  d ∈ (map_to_list h).*1 <-> is_Some (h !! d).
Proof.
  rewrite list_elem_of_fmap. split.
  - intros ([k v] & -> & Hkv). apply elem_of_map_to_list in Hkv. by exists v.
  - intros [v Hv]. exists (d, v). split; [reflexivity|].
    by apply elem_of_map_to_list.
Qed.

Lemma elem_of_sorted_keys {A} (h : gmap string A) (d : string) :
  d ∈ Py.sorted (map_to_list h).*1 <-> is_Some (h !! d).
Proof.
  unfold Py.sorted. rewrite merge_sort_Permutation. apply elem_of_keys.
Qed.

(** Of a sorted list, what a suffix leaves out is below what it keeps. *)
Lemma drop_keeps_greatest (l : list string) (k : nat) (d d' : string) :
  Sorted String.le l -> d ∈ drop k l -> d' ∈ l -> d' ∉ drop k l -> String.le d' d.
Proof.
  intros Hs Hd Hd' Hnd'. apply (Sorted_StronglySorted _) in Hs.
  rewrite <- (take_drop k l) in Hs, Hd'.
  apply elem_of_app in Hd' as [Hd'|Hd']; [|done].
  by apply (StronglySorted_app_1_elem_of _ _ _ _ _ Hs).
Qed.

Lemma Sorted_drop (l : list string) (k : nat) :
  Sorted String.le l -> Sorted String.le (drop k l).
Proof.
  intros Hs. apply (Sorted_StronglySorted _) in Hs.
  rewrite <- (take_drop k l) in Hs.
  apply StronglySorted_app_1_r in Hs. by apply StronglySorted_Sorted.
Qed.

(** X11. The panel of the history needs two recorded dates. With them it draws
    the 30 most recent dates (all of them when there are fewer), in the
    order of the keys, each with the base index and the probability of its
    own record. *)
Theorem history_panel_last_thirty (h : gmap string DailyRecord) :
  match plot_history_trend h with
  | NotEnoughHistory => (size h < 2)%nat
  | HistorySeries dates indices probs =>
      (2 <= size h)%nat /\
      length dates = Nat.min 30 (size h) /\
      Sorted String.le dates /\
      (forall d, d ∈ dates -> is_Some (h !! d)) /\
      (forall d d', d ∈ dates -> is_Some (h !! d') -> d' ∉ dates -> String.le d' d) /\
      Forall2 (fun d i => dr_index <$> h !! d = Some i) dates indices /\
      Forall2 (fun d p => dr_probability <$> h !! d = Some p) dates probs
  end.
Proof.
  unfold plot_history_trend.
  destruct (Nat.ltb_spec (size h) 2) as [Hlt|Hge]; [exact Hlt|].
  set (keys := Py.sorted (map_to_list h).*1).
  assert (Hlen : length keys = size h).
  { subst keys. by rewrite length_sorted, length_keys. }
  assert (Hs : Sorted String.le keys) by apply (Sorted_merge_sort String.le).
  unfold Py.slice_from. rewrite Hlen.
  change (-30 <? 0)%Z with true. cbv iota zeta.
  set (k := Z.to_nat (Z.max (-30 + Z.of_nat (size h)) 0)).
  assert (Hin : forall d, d ∈ drop k keys -> is_Some (h !! d)).
  { intros d Hd. apply elem_of_sorted_keys.
    by apply (subseteq_drop k keys). }
  split; [exact Hge|]. split; [rewrite length_drop, Hlen; lia|].
  split; [by apply Sorted_drop|]. split; [exact Hin|]. split.
  { intros d d' Hd Hd' Hnd'. apply (drop_keeps_greatest keys k); try done.
    by apply elem_of_sorted_keys. }
  split.
  - apply Forall2_fmap_r, Forall_Forall2_diag, Forall_forall.
    intros d Hd. destruct (Hin d Hd) as [r Hr]. unfold compose.
    by rewrite lookup_total_alt, Hr.
  - apply Forall2_fmap_r, Forall_Forall2_diag, Forall_forall.
    intros d Hd. destruct (Hin d Hd) as [r Hr]. unfold compose.
    by rewrite lookup_total_alt, Hr.
Qed.

(** X12. The panel of the acceleration needs 14 recorded dates. The colour of
    its bar follows the bounds 0 and 0.3 and the label the bounds of the
    trend, so they agree only at the ends: a bar labelled severe is red and
    one labelled improving is green with its label on the right, while a
    red bar is severe or of concern, a green one improving or normal, and
    an orange one normal or of concern. The bar is never negative. *)
Theorem acceleration_panel_colours (h : gmap string DailyRecord) :
  match plot_acceleration h with
  | NoAccelerationData => (size h < 14)%nat
  | AccelerationBar color len title label ha =>
      (14 <= size h)%nat /\
      0 <= len /\
      (label = "严重" -> color = "red" /\ ha = "left") /\
      (label = "好转" -> color = "green" /\ ha = "right") /\
      (color = "red" -> label = "严重" \/ label = "关注") /\
      (color = "green" -> label = "好转" \/ label = "正常") /\
      (color = "orange" -> label = "正常" \/ label = "关注")
  end.
Proof.
  unfold plot_acceleration.
  destruct (Z.ltb_spec (Z.of_nat (size h)) default_days) as [Hlt|Hge].
  { rewrite calculate_acceleration_short by exact Hlt.
    unfold default_days in Hlt. lia. }
  destruct (calculate_acceleration_enough h default_days Hge)
    as (a & t & -> & _ & Htab & Ht).
  split; [unfold default_days in Hge; lia|].
  split; [apply Qabs_nonneg|].
  assert (Hsev : severity a = (trend_table t).2) by by rewrite <- Htab.
  rewrite Hsev. clear Htab Hsev.
  rewrite float_three_tenths.
  set (c3 := 5404319552844595 # 18014398509481984).
  assert (Hc3 : 3602879701896397 # 36028797018963968 < c3 /\ c3 < 1 # 2)
    by (split; reflexivity).
  destruct (Qltb_reflect (acceleration a) 0) as [H0|H0];
    [|apply Qnot_lt_le in H0;
      destruct (Qltb_reflect (acceleration a) c3) as [H3|H3];
      [|apply Qnot_lt_le in H3]];
    (destruct (Qltb_reflect 0 (acceleration a)) as [Hp|Hp];
      [|apply Qnot_lt_le in Hp]);
    destruct Ht; rewrite ?float_half, ?float_tenth in *; cbn [trend_table snd];
    repeat split; intros; try discriminate; try (exfalso; lra); auto.
Qed.

End Plots.

(* ===================================================================== *)
(** * The collector *)
(* ===================================================================== *)

Section Collector.

Import Datetime Enhanced Spec.
Local Open Scope Q_scope.

Lemma extended_append_result (d : string) (x : Problem) (ys : list Problem)
    (r : ProblemData) :
  extended d ys (append_result d x r) = extended d (x :: ys) r.
Proof.
  induction r as [|[key l] r IH]; [reflexivity|]. cbn.
  destruct (decide (key = d)) as [Hk|Hk]; cbn.
  - rewrite decide_True by done. by rewrite <- app_assoc.
  - rewrite decide_False by done. by rewrite IH.
Qed.

Lemma extended_nil (d : string) (r : ProblemData) : extended d [] r = r.
Proof.
  induction r as [|[key l] r IH]; [reflexivity|]. cbn.
  destruct (decide (key = d)); [by rewrite app_nil_r | by rewrite IH].
Qed.

(** The loop over the problems of one difficulty. *)
Lemma collect_tier (fetch : string -> FetchOutcome) (d : string)
    (catalog : list TrackedProblem) (r : ProblemData) (sc fc : nat) :
  exists fc',
    fold_left (collect_step fetch d) catalog (r, sc, fc) =
      (extended d (answered fetch catalog) r,
       (sc + length (answered fetch catalog))%nat, fc').
Proof.
  revert r sc fc. induction catalog as [|c catalog IH]; intros r sc fc.
  - exists fc. cbn. by rewrite extended_nil, Nat.add_0_r.
  - assert (Ha : answered fetch (c :: catalog) =
                  match answered_problem fetch c with
                  | Some y => y :: answered fetch catalog
                  | None => answered fetch catalog
                  end) by reflexivity.
    rewrite Ha. clear Ha. cbn [fold_left]. unfold collect_step at 2.
    unfold answered_problem.
    destruct (fetch (tp_slug c)) as [s t|e].
    + destruct (IH (append_result d
                      {| slug := s; name := Some (tp_name c); total_submission := t;
                         weight := tp_weight c |} r) (S sc) fc) as [fc' ->].
      exists fc'. rewrite extended_append_result. cbn [length].
      by rewrite Nat.add_succ_r.
    + destruct (IH r sc (S fc)) as [fc' ->]. by exists fc'.
Qed.

Lemma no_answer_no_success (fetch : string -> FetchOutcome)
    (catalog : list TrackedProblem) :
  (length (answered fetch catalog) =? 0)%nat =
    negb (existsb (fun c => succeeded (fetch (tp_slug c))) catalog).
Proof.
  induction catalog as [|c catalog IH]; [reflexivity|].
  unfold answered. cbn [omap list_omap existsb]. unfold answered_problem at 1.
  destruct (fetch (tp_slug c)); [reflexivity | exact IH].
Qed.

Lemma answered_app (fetch : string -> FetchOutcome) (l1 l2 : list TrackedProblem) :
  answered fetch (l1 ++ l2) = answered fetch l1 ++ answered fetch l2.
Proof. apply omap_app. Qed.

(** The two loops of [collect_all_problems], for a catalog of the three
    difficulties. *)
Lemma collect_three (fetch : string -> FetchOutcome) (e m h : list TrackedProblem) :
  exists fc,
    fold_left (fun acc item => fold_left (collect_step fetch item.1) item.2 acc)
      [("easy", e); ("medium", m); ("hard", h)]
      ([("easy", []); ("medium", []); ("hard", []); ("timestamp", [])], O, O) =
    ([("easy", answered fetch e); ("medium", answered fetch m);
      ("hard", answered fetch h); ("timestamp", [])],
     length (answered fetch (e ++ m ++ h)), fc).
Proof.
  cbn [fold_left fst snd].
  edestruct (collect_tier fetch "easy" e) as [fc1 ->].
  edestruct (collect_tier fetch "medium" m) as [fc2 ->].
  edestruct (collect_tier fetch "hard" h) as [fc3 ->].
  exists fc3. rewrite !answered_app, !length_app, Nat.add_assoc.
  reflexivity.
Qed.

Lemma collect_loops (fetch : string -> FetchOutcome) :
  exists fc,
    fold_left (fun acc item => fold_left (collect_step fetch item.1) item.2 acc)
      problems
      ([("easy", []); ("medium", []); ("hard", []); ("timestamp", [])], O, O) =
    (((fun item => (item.1, answered fetch item.2)) <$> problems)
       ++ [("timestamp", [])],
     length (answered fetch tracked), fc).
Proof. exact (collect_three fetch _ _ _). Qed.

Lemma collect_all_problems_closed (fetch : string -> FetchOutcome)
    (randint : nat -> Z) :
  collect_all_problems fetch randint =
    if existsb (fun c => succeeded (fetch (tp_slug c))) tracked
    then ((fun item => (item.1, answered fetch item.2)) <$> problems)
           ++ [("timestamp", [])]
    else demo_tiers randint 0 problems ++ [("timestamp", [])].
Proof.
  unfold collect_all_problems.
  destruct (collect_loops fetch) as [fc ->].
  rewrite no_answer_no_success.
  destruct (existsb _ tracked); reflexivity.
Qed.

(** X13. The collector keeps exactly the problems whose request succeeded, in
    the order of the catalog and under their difficulty, each with the
    weight and the name of the catalog; a failed request only drops its
    problem. If no request succeeded it answers the demo data instead:
    every catalogued problem, with the number drawn for its rank. *)
Theorem collector_keeps_answered (fetch : string -> FetchOutcome)
    (randint : nat -> Z) :
  collect_all_problems fetch randint =
    if existsb (fun c => succeeded (fetch (tp_slug c))) tracked
    then ((fun item => (item.1, answered fetch item.2)) <$> problems)
           ++ [("timestamp", [])]
    else demo_tiers randint 0 problems ++ [("timestamp", [])].
Proof. apply collect_all_problems_closed. Qed.

Lemma answered_cons (fetch : string -> FetchOutcome) (c : TrackedProblem)
    (catalog : list TrackedProblem) :
  answered fetch (c :: catalog) =
    match answered_problem fetch c with
    | Some y => y :: answered fetch catalog
    | None => answered fetch catalog
    end.
Proof. reflexivity. Qed.

(** What holds of a list of collected problems of one difficulty. *)
Lemma answered_tier (fetch : string -> FetchOutcome) (catalog : list TrackedProblem) :
  Forall (fun c => 0 <= tp_weight c) catalog ->
  (length (answered fetch catalog) <= length catalog)%nat /\
  Forall (fun p => exists c, c ∈ catalog /\ name p = Some (tp_name c) /\
                             weight p = tp_weight c)
         (answered fetch catalog) /\
  0 <= total (weight <$> answered fetch catalog) /\
  total (weight <$> answered fetch catalog) <= total (tp_weight <$> catalog).
Proof.
  induction 1 as [|c catalog Hc _ (IHn & IHf & IH0 & IHt)].
  { cbn. repeat split; [lia | constructor | unfold total; cbn; lra..]. }
  rewrite answered_cons. unfold answered_problem.
  assert (Hf : Forall (fun p => exists c0, c0 ∈ c :: catalog /\
                         name p = Some (tp_name c0) /\ weight p = tp_weight c0)
                 (answered fetch catalog)).
  { eapply Forall_impl; [exact IHf|]. intros p (c0 & Hc0 & Hp).
    exists c0. split; [by apply elem_of_cons; right | exact Hp]. }
  cbn [fmap list_fmap]. rewrite (total_cons (tp_weight c)).
  destruct (fetch (tp_slug c)) as [s t|e].
  - cbn [length fmap list_fmap weight]. rewrite total_cons.
    repeat split; [lia| |lra..].
    constructor; [|exact Hf]. exists c. repeat split. apply elem_of_cons; by left.
  - repeat split; [cbn [length]; lia | exact Hf | lra..].
Qed.

Lemma tracked_weights_nonneg : Forall (fun c => 0 <= tp_weight c) tracked.
Proof. repeat constructor; discriminate. Qed.

(** X14. Whatever the network answers, the collector hands the calculator the
    three difficulties and the time stamp with at least one problem, so
    that the calculator never takes its branch of an empty input; each
    difficulty has at most four problems, their weights and names are
    those of the catalog, and their weights add up to 1 at most. *)
Theorem collector_never_empty (fetch : string -> FetchOutcome) (randint : nat -> Z) :
  exists e m h,
    collect_all_problems fetch randint =
      [("easy", e); ("medium", m); ("hard", h); ("timestamp", [])] /\
    e ++ m ++ h <> [] /\
    (forall history now,
       wr_timestamp (calculate_weighted_index history now
                       (collect_all_problems fetch randint)) =
         Some (isoformat now)) /\
    Forall (fun l =>
              (length l <= 4)%nat /\
              Forall (fun p => exists c, c ∈ tracked /\ name p = Some (tp_name c) /\
                                         weight p = tp_weight c) l /\
              0 <= total (weight <$> l) <= 1)
           [e; m; h].
Proof.
  assert (Hts : forall history now e m h,
            wr_timestamp (calculate_weighted_index history now
                            [("easy", e); ("medium", m); ("hard", h); ("timestamp", [])]) =
              Some (isoformat now)).
  { intros history now e m h. unfold calculate_weighted_index.
    by destruct (fold_left _ _ _). }
  rewrite collect_all_problems_closed.
  destruct (existsb _ tracked) eqn:Hsome.
  - eexists _, _, _. split; [reflexivity|]. split; [|split; [intros; apply Hts|]].
    + rewrite <- !answered_app. intros Hnil.
      change (answered fetch tracked = []) in Hnil.
      pose proof (no_answer_no_success fetch tracked) as Hn.
      rewrite Hnil, Hsome in Hn. discriminate.
    + pose proof tracked_weights_nonneg as Hw.
      unfold tracked, problems in Hw. cbn [mbind list_bind snd] in Hw.
      apply Forall_app in Hw as [He Hw]. apply Forall_app in Hw as [Hm Hw].
      apply Forall_app in Hw as [Hh _].
      cbn [snd fst].
      repeat (apply Forall_cons; split); [| | |constructor].
      all: match goal with
           | |- context [answered ?f ?cat] =>
               destruct (answered_tier f cat) as (Hn & Hf & H0 & Ht);
                 [assumption|]
           end.
      all: split; [exact Hn|]; split;
             [|split; [exact H0 | eapply Qle_trans; [exact Ht | discriminate]]].
      all: eapply Forall_impl; [exact Hf|]; intros p (c & Hc & Hp);
             exists c; split; [|exact Hp].
      all: unfold tracked, problems; cbn [mbind list_bind snd];
             rewrite !elem_of_app; auto.
  - eexists _, _, _. split; [reflexivity|]. split; [discriminate|].
    split; [intros; apply Hts|].
    repeat (apply Forall_cons; split); [| | |constructor].
    all: split; [cbn; lia|]; split; [|split; discriminate].
    all: repeat (apply Forall_cons; split); [| | | |constructor].
    all: eexists; (split; [|split; reflexivity]).
    all: unfold tracked, problems; cbn [mbind list_bind snd app];
           rewrite !elem_of_cons; auto 20.
Qed.

(** One answer is enough for the collector to keep what the network gave;
    with no answer it produces the twelve demo problems. *)
Example collector_one_answer (randint : nat -> Z) :
  collect_all_problems Examples.only_three_sum randint =
    [("easy", []);
     ("medium", [{| slug := "3sum"; name := Some "三数之和";
                    total_submission := 4000000; weight := 25 # 100 |}]);
     ("hard", []); ("timestamp", [])].
Proof. reflexivity. Qed.

Example collector_no_answer (randint : nat -> Z) :
  (fun p => (slug p, total_submission p)) <$>
    (item ← tiers (collect_all_problems Examples.dead_network randint); item.2) =
  imap (fun i c => (tp_slug c, randint i)) tracked.
Proof. reflexivity. Qed.

Lemma flat_three (e m h : list Problem) :
  (item ← tiers [("easy", e); ("medium", m); ("hard", h); ("timestamp", [])]; item.2) =
    e ++ m ++ h.
Proof. transitivity (e ++ m ++ h ++ []); [reflexivity | by rewrite app_nil_r]. Qed.

Lemma find_answered_absent (fetch : string -> FetchOutcome) (q : string)
    (l : list TrackedProblem) :
  answers_what_was_asked fetch -> q ∉ tp_slug <$> l ->
  List.find (fun p => bool_decide (slug p = q)) (answered fetch l) = None.
Proof.
  intros Hask. induction l as [|c0 l IH]; intros Hq; [reflexivity|].
  rewrite fmap_cons, not_elem_of_cons in Hq. destruct Hq as [Hq0 Hq].
  rewrite answered_cons. unfold answered_problem.
  destruct (fetch (tp_slug c0)) as [s t|e] eqn:Hf; [|by apply IH].
  apply Hask in Hf as ->. cbn [List.find slug].
  rewrite bool_decide_eq_false_2 by congruence. by apply IH.
Qed.

Lemma find_answered (fetch : string -> FetchOutcome) (c : TrackedProblem)
    (l : list TrackedProblem) :
  answers_what_was_asked fetch -> NoDup (tp_slug <$> l) -> c ∈ l ->
  List.find (fun p => bool_decide (slug p = tp_slug c)) (answered fetch l) =
    answered_problem fetch c.
Proof.
  intros Hask. induction l as [|c0 l IH]; intros Hnd Hc.
  { by apply elem_of_nil in Hc. }
  rewrite fmap_cons in Hnd. apply NoDup_cons in Hnd as [Hc0 Hnd].
  rewrite answered_cons.
  apply elem_of_cons in Hc as [->|Hc].
  - unfold answered_problem.
    destruct (fetch (tp_slug c0)) as [s t|e] eqn:Hf.
    + pose proof (Hask _ _ _ Hf) as ->. cbn [List.find slug].
      by rewrite bool_decide_eq_true_2.
    + by apply find_answered_absent.
  - assert (Hne : tp_slug c0 <> tp_slug c).
    { intros Heq. apply Hc0. rewrite Heq. by apply list_elem_of_fmap_2. }
    unfold answered_problem at 1.
    destruct (fetch (tp_slug c0)) as [s t|e] eqn:Hf; [|by apply IH].
    pose proof (Hask _ _ _ Hf) as ->. cbn [List.find slug].
    rewrite bool_decide_eq_false_2 by done. by apply IH.
Qed.

Lemma tracked_slugs_NoDup : NoDup (tp_slug <$> tracked).
Proof. apply (bool_decide_unpack _). by vm_compute. Qed.

(** X15. Between two days of a network that answers what it is asked, when the
    first day's collection was not the demo data: a tracked problem that
    was answered on the first day with a positive total has on the second
    day the increment of its totals, whatever the other problems; one that
    was answered with no submission, or not answered, has the hundredth of
    its second total. *)
Theorem tracked_increment_between_days (fetch : string -> FetchOutcome)
    (randint : nat -> Z) (now now2 : datetime) (io : WriteOutcome) (w : World)
    (c : TrackedProblem) (p2 : Problem) :
  answers_what_was_asked fetch ->
  c ∈ tracked ->
  existsb (fun c => succeeded (fetch (tp_slug c))) tracked = true ->
  strftime_ymd (minus_one_day now2) = strftime_ymd now ->
  slug p2 = tp_slug c ->
  let h' := daily_indices
              (collect_and_analyze (collect_all_problems fetch randint) now io w).2 in
  increment_of (h' !! strftime_ymd (minus_one_day now2)) p2 =
    match fetch (tp_slug c) with
    | FetchSuccess _ t1 =>
        if decide (0 < t1)%Z then (total_submission p2 - t1)%Z
        else (total_submission p2 `div` 100)%Z
    | FetchFailure _ => (total_submission p2 `div` 100)%Z
    end.
Proof.
  intros Hask Hc Hsome Hkey Hslug h'. subst h'.
  rewrite increment_after_cycle by exact Hkey.
  rewrite collect_all_problems_closed, Hsome.
  change (((fun item => (item.1, answered fetch item.2)) <$> problems)
            ++ [("timestamp", [])])
    with [("easy", answered fetch (problems !!! 0%nat).2);
          ("medium", answered fetch (problems !!! 1%nat).2);
          ("hard", answered fetch (problems !!! 2%nat).2);
          ("timestamp", [])].
  rewrite flat_three, <- !answered_app.
  rewrite Hslug.
  change ((problems !!! 0%nat).2 ++ (problems !!! 1%nat).2 ++ (problems !!! 2%nat).2)
    with tracked.
  rewrite (find_answered fetch c tracked Hask tracked_slugs_NoDup Hc).
  unfold answered_problem. by destruct (fetch (tp_slug c)).
Qed.

Lemma tracked_increment_between_days_witness :
  let h' := daily_indices
              (collect_and_analyze
                 (collect_all_problems (Examples.steady_network 1000000) (fun _ => 0%Z))
                 (Examples.january 9) WriteOk Examples.empty_world).2 in
  increment_of (h' !! strftime_ymd (minus_one_day (Examples.january 10)))
    (Examples.two_sum 1000700) =
    match Examples.steady_network 1000000 "two-sum" with
    | FetchSuccess _ t1 =>
        if decide (0 < t1)%Z then (1000700 - t1)%Z else (1000700 `div` 100)%Z
    | FetchFailure _ => (1000700 `div` 100)%Z
    end.
Proof.
  apply (tracked_increment_between_days (Examples.steady_network 1000000)
           (fun _ => 0%Z) (Examples.january 9) (Examples.january 10) WriteOk
           Examples.empty_world
           {| tp_slug := "two-sum"; tp_weight := 3 # 10; tp_name := "两数之和" |}
           (Examples.two_sum 1000700)).
  - intros q s t Hf. by injection Hf as <- _.
  - apply list_elem_of_here.
  - reflexivity.
  - reflexivity.
  - reflexivity.
Defined.

End Collector.

(* ===================================================================== *)
(** * The collection service of [src/main.py] *)
(* ===================================================================== *)

Section Service.

Import Datetime Spec.
Local Open Scope Z_scope.

(** The character of the decimal digit [k]. *)
Lemma digit_char (n : Z) :
  exists c, digit n = String c "" /\ c <> Main.colon /\
            Py.digit_value c = Some (n mod 10).
Proof.
  unfold digit. eexists. split; [reflexivity|].
  pose proof (Z.mod_pos_bound n 10 eq_refl) as Hk.
  assert (Hc : n mod 10 = 0 \/ n mod 10 = 1 \/ n mod 10 = 2 \/ n mod 10 = 3 \/
               n mod 10 = 4 \/ n mod 10 = 5 \/ n mod 10 = 6 \/ n mod 10 = 7 \/
               n mod 10 = 8 \/ n mod 10 = 9) by lia.
  destruct Hc as [->|[->|[->|[->|[->|[->|[->|[->|[->| ->]]]]]]]]];
    split; (discriminate || reflexivity).
Qed.

(** [map(int, current_time.split(':'))] gives back the hour and the
    minute. *)
Lemma hour_minute_strftime (now : datetime) :
  0 <= hour now < 100 -> 0 <= minute now < 100 ->
  Main.hour_minute (strftime_hm now) = Some (hour now, minute now).
Proof.
  intros Hh Hm. unfold strftime_hm.
  change (pad 2 (hour now)) with (digit (hour now / 10) +:+ digit (hour now))%string.
  change (pad 2 (minute now))
    with (digit (minute now / 10) +:+ digit (minute now))%string.
  destruct (digit_char (hour now / 10)) as (a & -> & Ha & Hva).
  destruct (digit_char (hour now)) as (b & -> & Hb & Hvb).
  destruct (digit_char (minute now / 10)) as (c & -> & Hc & Hvc).
  destruct (digit_char (minute now)) as (d & -> & Hd & Hvd).
  change (Main.hour_minute
            (String a (String b (String Main.colon (String c (String d ""))))) =
          Some (hour now, minute now)).
  unfold Main.hour_minute, Py.split. cbn [Py.split_go].
  rewrite !decide_False by done. rewrite decide_True by done.
  rewrite !decide_False by done.
  cbn [String.rev String.rev_app Py.int Py.int_go]. rewrite Hva, Hvb, Hvc, Hvd.
  do 2 f_equal; Z.div_mod_to_equations; lia.
Qed.

(** One turn of the loop over the collection times. *)
Lemma should_collect_scan_cons (collect_time : string) (rest : list string)
    (last_collection : option string) (now : datetime) (ch cm : Z) :
  0 <= hour now < 100 -> 0 <= minute now < 100 ->
  Main.hour_minute collect_time = Some (ch, cm) ->
  Main.should_collect_scan (collect_time :: rest) last_collection now =
    if Z.abs ((hour now * 60 + minute now) - (ch * 60 + cm)) <=? 5 then
      if decide (Some (strftime_ymd now +:+ "_" +:+ collect_time)%string
                 <> last_collection)
      then Some (true, Some (strftime_ymd now +:+ "_" +:+ collect_time)%string)
      else Main.should_collect_scan rest last_collection now
    else Main.should_collect_scan rest last_collection now.
Proof.
  intros Hh Hm Hct. cbn [Main.should_collect_scan].
  by rewrite Hct, hour_minute_strftime.
Qed.

Lemma should_collect_now_closed (last_collection : option string) (now : datetime) :
  clock_time now ->
  Main.should_collect_now last_collection now =
    Some match slot_of (hour now * 60 + minute now) with
         | Some collect_time =>
             let collection_key := (strftime_ymd now +:+ "_" +:+ collect_time)%string in
             if decide (Some collection_key <> last_collection)
             then (true, Some collection_key)
             else (false, None)
         | None => (false, None)
         end.
Proof.
  intros [Hh Hm]. unfold Main.should_collect_now, Main.collect_times.
  rewrite (should_collect_scan_cons "00:00" _ _ _ 0 0) by (lia || reflexivity).
  rewrite (should_collect_scan_cons "08:00" _ _ _ 8 0) by (lia || reflexivity).
  rewrite (should_collect_scan_cons "16:00" _ _ _ 16 0) by (lia || reflexivity).
  cbn [Main.should_collect_scan]. unfold slot_of.
  set (t := hour now * 60 + minute now). assert (0 <= t < 1440) by (subst t; lia).
  destruct (Z.leb_spec (Z.abs (t - (0 * 60 + 0))) 5);
    destruct (Z.leb_spec (Z.abs (t - (8 * 60 + 0))) 5);
    destruct (Z.leb_spec (Z.abs (t - (16 * 60 + 0))) 5);
    destruct (Z.leb_spec t 5); destruct (Z.leb_spec 475 t);
    destruct (Z.leb_spec t 485); destruct (Z.leb_spec 955 t);
    destruct (Z.leb_spec t 965); try (exfalso; lia); cbn [andb];
    repeat (destruct (decide _)); reflexivity.
Qed.

(** X16. At a time of the day the check never raises. It asks for a collection
    only within five minutes of 00:00, 08:00 or 16:00 of the same day, so
    that the five minutes before midnight are outside of every window, and
    only if the key of the day and of the collection time is not the last
    key collected. *)
Theorem collection_windows (last_collection : option string) (now : datetime) :
  clock_time now ->
  Main.should_collect_now last_collection now =
    Some match slot_of (hour now * 60 + minute now) with
         | Some collect_time =>
             let collection_key := (strftime_ymd now +:+ "_" +:+ collect_time)%string in
             if decide (Some collection_key <> last_collection)
             then (true, Some collection_key)
             else (false, None)
         | None => (false, None)
         end /\
  (hour now = 23 -> Main.should_collect_now last_collection now = Some (false, None)).
Proof.
  intros Hc. rewrite should_collect_now_closed by exact Hc. split; [reflexivity|].
  intros H23. destruct Hc as [_ Hm]. unfold slot_of. rewrite H23.
  destruct (Z.leb_spec (23 * 60 + minute now) 5); [lia|].
  destruct (Z.leb_spec (23 * 60 + minute now) 485); [lia|].
  destruct (Z.leb_spec (23 * 60 + minute now) 965); [lia|].
  by rewrite !andb_false_r.
Qed.

Lemma collection_windows_witness :
  Main.should_collect_now None Examples.march_10 =
    Some match slot_of (hour Examples.march_10 * 60 + minute Examples.march_10) with
         | Some collect_time =>
             let collection_key :=
               (strftime_ymd Examples.march_10 +:+ "_" +:+ collect_time)%string in
             if decide (Some collection_key <> None)
             then (true, Some collection_key)
             else (false, None)
         | None => (false, None)
         end /\
  (hour Examples.march_10 = 23 ->
   Main.should_collect_now None Examples.march_10 = Some (false, None)).
Proof.
  apply (collection_windows None Examples.march_10).
  unfold clock_time. cbn. lia.
Defined.

Lemma string_app_inj_length (s1 s2 t : string) :
  String.length s1 = String.length s2 ->
  (s1 +:+ t)%string = (s2 +:+ t)%string -> s1 = s2.
Proof.
  revert s2. induction s1 as [|a s1 IH]; intros [|b s2] Hlen Heq;
    try discriminate; [reflexivity|].
  change (String a (s1 +:+ t) = String b (s2 +:+ t))%string in Heq.
  injection Heq as -> Heq. f_equal. apply IH; [by injection Hlen | exact Heq].
Qed.

(** X17. The service collects once for a collection time of a day: when a check
    has asked for a collection and the loop has kept its key, no later
    check of the same day and of the same window asks again, while the
    same window of another day asks again. *)
Theorem one_collection_per_slot (last_collection : option string)
    (now later : datetime) (collection_key : string) :
  clock_time now -> clock_time later ->
  Main.should_collect_now last_collection now = Some (true, Some collection_key) ->
  slot_of (hour later * 60 + minute later) = slot_of (hour now * 60 + minute now) ->
  (strftime_ymd later = strftime_ymd now ->
   Main.should_collect_now (Some collection_key) later = Some (false, None)) /\
  (strftime_ymd later <> strftime_ymd now ->
   exists key', key' <> collection_key /\
     Main.should_collect_now (Some collection_key) later = Some (true, Some key')).
Proof.
  intros Hn Hl Hask Hslot.
  rewrite should_collect_now_closed in Hask by exact Hn.
  rewrite should_collect_now_closed by exact Hl. rewrite Hslot.
  destruct (slot_of _) as [ct|]; [|discriminate]. cbv zeta in Hask |- *.
  destruct (decide (Some _ <> last_collection)) as [_|_]; [|discriminate].
  injection Hask as <-. split.
  - intros ->. by rewrite decide_False by (intros Hne; by apply Hne).
  - intros Hday.
    assert (Hne : (strftime_ymd later +:+ "_" +:+ ct)%string <>
                  (strftime_ymd now +:+ "_" +:+ ct)%string).
    { intros Heq. apply Hday. revert Heq. apply string_app_inj_length.
      reflexivity. }
    eexists. split; [exact Hne|].
    rewrite decide_True by congruence. reflexivity.
Qed.

Lemma one_collection_per_slot_witness :
  (strftime_ymd Examples.march_10_0803 = strftime_ymd Examples.march_10 ->
   Main.should_collect_now (Some "2024-03-10_08:00"%string) Examples.march_10_0803 =
     Some (false, None)) /\
  (strftime_ymd Examples.march_10_0803 <> strftime_ymd Examples.march_10 ->
   exists key', key' <> "2024-03-10_08:00"%string /\
     Main.should_collect_now (Some "2024-03-10_08:00"%string) Examples.march_10_0803 =
       Some (true, Some key')).
Proof.
  apply (one_collection_per_slot None Examples.march_10 Examples.march_10_0803).
  - unfold clock_time. cbn. lia.
  - unfold clock_time. cbn. lia.
  - reflexivity.
  - reflexivity.
Defined.

End Service.

(* ===================================================================== *)
(** * The history of [src/main.py] *)
(* ===================================================================== *)

Section History.

Import Datetime Spec.
Local Open Scope Z_scope.

Lemma legacy_step_lookup (m : gmap string Main.DayRecord) (x : Main.LegacyItem)
    (d : string) :
  Main.legacy_step m x !! d = if dated d x then migrated x else m !! d.
Proof.
  destruct x as [|r]; [reflexivity|]. cbn.
  destruct (Main.lg_date r) as [date|].
  - destruct (decide (date = d)) as [->|Hne].
    + by rewrite bool_decide_eq_true_2, lookup_insert_eq.
    + rewrite bool_decide_eq_false_2 by congruence.
      by rewrite lookup_insert_ne.
  - by rewrite bool_decide_eq_false_2.
Qed.

Lemma legacy_loop_lookup (data : list Main.LegacyItem)
    (m : gmap string Main.DayRecord) (d : string) :
  fold_left Main.legacy_step data m !! d =
    match List.find (dated d) (reverse data) with
    | Some item => migrated item
    | None => m !! d
    end.
Proof.
  induction data as [|x data IH] using rev_ind; [reflexivity|].
  rewrite fold_left_app, reverse_snoc. cbn [fold_left List.find].
  rewrite legacy_step_lookup. by destruct (dated d x).
Qed.

(** X18. Reading a history file of the old list format: the record of a date
    is made of the last dict of the list with that date, with 0 for each
    count that the dict lacks and with no time of collection and no
    increment; what is not a dict or has no date is dropped. A file of the
    new format is taken as it is, and a file that is missing or cannot be
    read gives the empty history. *)
Theorem legacy_list_last_wins (data : list Main.LegacyItem) (d : string) :
  Main.load_history (Main.ReadOk (Main.JsonList data)) !! d =
    (List.find (dated d) (reverse data) ≫= migrated) /\
  (forall h, Main.load_history (Main.ReadOk (Main.JsonDict h)) = h) /\
  (forall e, Main.load_history (Main.ReadError e) = ∅) /\
  Main.load_history Main.NoFile = ∅.
Proof.
  split; [|by repeat split].
  unfold Main.load_history. rewrite legacy_loop_lookup.
  by destruct (List.find _ _).
Qed.

Lemma NoDup_sorted_keys {A} (h : gmap string A) :
  NoDup (Py.sorted (map_to_list h).*1).
Proof.
  unfold Py.sorted. rewrite merge_sort_Permutation. apply NoDup_fst_map_to_list.
Qed.

(** The sorted dates around a recorded date. *)
Lemma sorted_keys_split {A} (h : gmap string A) (today : string) :
  is_Some (h !! today) ->
  exists l1 l2,
    Py.sorted (map_to_list h).*1 = l1 ++ today :: l2 /\
    (today ∉ l1) /\
    StronglySorted String.le l1 /\
    (forall d, d ∈ l1 -> String.le d today /\ d <> today /\ is_Some (h !! d)) /\
    (forall d, d ∈ l2 -> String.le today d /\ d <> today).
Proof.
  intros Ht. apply elem_of_sorted_keys in Ht.
  pose proof (NoDup_sorted_keys h) as Hnd.
  pose proof (StronglySorted_merge_sort String.le (map_to_list h).*1) as Hs.
  pose proof (fun d => proj1 (elem_of_sorted_keys h d)) as Hk.
  fold (Py.sorted (map_to_list h).*1) in Hs.
  apply list_elem_of_split in Ht as (l1 & l2 & Heq).
  rewrite Heq in Hnd, Hs, Hk. exists l1, l2. split; [exact Heq|].
  apply NoDup_app in Hnd as (_ & Hnd1 & Hnd2).
  apply NoDup_cons in Hnd2 as [Hnd2 _].
  assert (Hnot : today ∉ l1).
  { intros Hin. apply (Hnd1 _ Hin). by apply elem_of_cons; left. }
  split; [exact Hnot|]. split; [by apply StronglySorted_app_1_l in Hs|].
  split.
  - intros d Hd. split; [|split].
    + apply (StronglySorted_app_1_elem_of _ _ _ _ _ Hs Hd).
      by apply elem_of_cons; left.
    + by intros ->.
    + apply Hk. apply elem_of_app. by left.
  - intros d Hd. apply StronglySorted_app_1_r in Hs.
    apply StronglySorted_cons in Hs as [Hle _]. split.
    + by apply (proj1 (Forall_forall _ _) Hle).
    + by intros ->.
Qed.

Lemma index_of_app (l1 l2 : list string) (today : string) :
  today ∉ l1 -> Main.index_of (l1 ++ today :: l2) today = length l1.
Proof.
  induction l1 as [|d l1 IH]; intros Hnot; cbn.
  - by rewrite decide_True.
  - apply not_elem_of_cons in Hnot as [Hne Hnot].
    rewrite decide_False by done. by rewrite IH.
Qed.

(** What [calculate_increment] does for a recorded date. *)
Lemma calculate_increment_lookup (today : string) (history : gmap string Main.DayRecord)
    (r : Main.DayRecord) :
  history !! today = Some r ->
  (forall d, d <> today ->
     Main.calculate_increment today history !! d = history !! d) /\
  (Main.total_submission <$> Main.calculate_increment today history !! today =
     Some (Main.total_submission r)) /\
  (forall d r0, previous_date history today d -> history !! d = Some r0 ->
     Main.daily_increment <$> Main.calculate_increment today history !! today =
       Some (Some (Main.total_submission r - Main.total_submission r0))) /\
  ((forall d, is_Some (history !! d) -> String.le d today -> d = today) ->
   Main.calculate_increment today history !! today = Some r).
Proof.
  intros Hr.
  destruct (sorted_keys_split history today) as (l1 & l2 & Heq & Hnot & Hs1 & Hl1 & Hl2);
    [by exists r|].
  unfold Main.calculate_increment. rewrite Heq, index_of_app by exact Hnot.
  destruct l1 as [|d0 l0 _] using rev_ind.
  { cbn [length]. rewrite Nat.ltb_irrefl.
    assert (Hsame : (if (2 <=? length ([] ++ today :: l2))%nat then history else history)
                    = history) by by destruct (_ <=? _)%nat.
    rewrite Hsame. rewrite Hr. repeat split; try done.
    intros d r0 (Hd & Hle & Hne & _) _. exfalso.
    apply elem_of_sorted_keys in Hd. rewrite Heq in Hd. cbn in Hd.
    apply elem_of_cons in Hd as [?|Hd]; [done|].
    destruct (Hl2 d Hd) as [Hle' _]. apply Hne.
    by apply (anti_symm String.le). }
  assert (Hlen : (2 <=? length ((l0 ++ [d0]) ++ today :: l2))%nat = true).
  { apply Nat.leb_le. rewrite !length_app. cbn. lia. }
  rewrite Hlen. rewrite length_app. cbn [length].
  replace (0 <? length l0 + 1)%nat with true by (symmetry; apply Nat.ltb_lt; lia).
  replace (length l0 + 1 - 1)%nat with (length l0) by lia.
  assert (Hnth : nth (length l0) ((l0 ++ [d0]) ++ today :: l2) ""%string = d0).
  { rewrite <- !app_assoc. rewrite app_nth2 by lia.
    by rewrite Nat.sub_diag. }
  rewrite Hnth. clear Hnth Hlen.
  destruct (Hl1 d0) as (Hd0le & Hd0ne & Hd0some);
    [apply elem_of_app; right; by apply elem_of_cons; left|].
  split; [intros d Hd; by rewrite lookup_alter_ne|].
  rewrite lookup_alter_eq, Hr. cbn [fmap option_fmap option_map Main.total_submission
                                     Main.daily_increment].
  split; [reflexivity|]. split.
  - intros d r0 (Hd & Hle & Hne & Hmax) Hr0.
    assert (Hdd0 : d = d0).
    { apply (anti_symm String.le); [|by apply Hmax].
      apply elem_of_sorted_keys in Hd. rewrite Heq in Hd.
      apply elem_of_app in Hd as [Hd|Hd].
      - apply elem_of_app in Hd as [Hd|Hd].
        + apply (StronglySorted_app_1_elem_of _ _ _ _ _ Hs1 Hd).
          by apply elem_of_cons; left.
        + apply elem_of_cons in Hd as [->|Hd]; [done|by apply elem_of_nil in Hd].
      - apply elem_of_cons in Hd as [?|Hd]; [done|].
        destruct (Hl2 d Hd) as [Hle' _]. exfalso. apply Hne.
        by apply (anti_symm String.le). }
    subst d0. rewrite (lookup_total_correct _ _ _ Hr), (lookup_total_correct _ _ _ Hr0).
    reflexivity.
  - intros Hfirst. exfalso. apply Hd0ne. by apply Hfirst.
Qed.

Lemma collect_data_lookup (result : Main.FetchResult) (choice : string)
    (now : datetime) (history : gmap string Main.DayRecord) :
  Main.success result = true ->
  let today := strftime_ymd now in
  let h' := (Main.collect_data result choice now history).2 in
  (Main.collect_data result choice now history).1 = true /\
  (forall d, d <> today -> h' !! d = history !! d) /\
  Main.total_submission <$> h' !! today = Some (Main.fr_total_submission result) /\
  (forall d r0, previous_date history today d -> history !! d = Some r0 ->
     Main.daily_increment <$> h' !! today =
       Some (Some (Main.fr_total_submission result - Main.total_submission r0))) /\
  ((forall d, is_Some (history !! d) -> String.le d today -> d = today) ->
   Main.daily_increment <$> h' !! today = Some None).
Proof.
  intros Hok today h'. subst h'. unfold Main.collect_data. rewrite Hok.
  fold today. cbn [fst snd]. split; [reflexivity|].
  set (r := {| Main.total_submission := Main.fr_total_submission result;
               Main.daily_increment := None |}).
  destruct (calculate_increment_lookup today (<[today := r]> history) r)
    as (Hother & Htotal & Hprev & Hfirst); [apply lookup_insert_eq|].
  split; [|split; [exact Htotal|split]].
  - intros d Hd. rewrite Hother by exact Hd. by rewrite lookup_insert_ne.
  - intros d r0 (Hd & Hle & Hne & Hmax) Hr0.
    apply (Hprev d r0); [|by rewrite lookup_insert_ne].
    split; [by rewrite lookup_insert_ne|]. split; [exact Hle|]. split; [exact Hne|].
    intros d' Hd' Hle' Hne'. apply Hmax; [|exact Hle'|exact Hne'].
    by rewrite lookup_insert_ne in Hd'.
  - intros Hall. rewrite Hfirst; [reflexivity|].
    intros d Hd Hle. destruct (decide (d = today)) as [|Hne]; [done|].
    apply Hall; [|exact Hle]. by rewrite lookup_insert_ne in Hd.
Qed.


(** X19. A successful collection records the day's totals, leaves the records
    of the other dates as they are, and sets the day's increment to the
    day's total minus the total of the latest recorded date before it,
    however many days lie between; with no recorded date before it, the
    day has no increment. *)
Theorem collect_data_increment (result : Main.FetchResult) (choice : string)
    (now : datetime) (history : gmap string Main.DayRecord) :
  Main.success result = true ->
  let today := strftime_ymd now in
  let h' := (Main.collect_data result choice now history).2 in
  (Main.collect_data result choice now history).1 = true /\
  (forall d, d <> today -> h' !! d = history !! d) /\
  Main.total_submission <$> h' !! today = Some (Main.fr_total_submission result) /\
  (forall d r0, previous_date history today d -> history !! d = Some r0 ->
     Main.daily_increment <$> h' !! today =
       Some (Some (Main.fr_total_submission result - Main.total_submission r0))) /\
  ((forall d, is_Some (history !! d) -> String.le d today -> d = today) ->
   Main.daily_increment <$> h' !! today = Some None).
Proof. apply collect_data_lookup. Qed.

Lemma collect_data_increment_witness :
  let result := Examples.fetched_today in
  let now := Examples.march_10 in
  let history : gmap string Main.DayRecord := ∅ in
  let today := strftime_ymd now in
  let h' := (Main.collect_data result "" now history).2 in
  (Main.collect_data result "" now history).1 = true /\
  (forall d, d <> today -> h' !! d = history !! d) /\
  Main.total_submission <$> h' !! today = Some (Main.fr_total_submission result) /\
  (forall d r0, previous_date history today d -> history !! d = Some r0 ->
     Main.daily_increment <$> h' !! today =
       Some (Some (Main.fr_total_submission result - Main.total_submission r0))) /\
  ((forall d, is_Some (history !! d) -> String.le d today -> d = today) ->
   Main.daily_increment <$> h' !! today = Some None).
Proof.
  apply (collect_data_increment Examples.fetched_today "" Examples.march_10 ∅).
  reflexivity.
Defined.

(** X20. Demo data enter the history as a day's record, marked as demo data,
    and the next collection takes its increment from their total: after
    a failed collection answered with "y", a successful collection on a
    later date with no recorded date in between has the increment of its
    total over 9,123,456. *)
Theorem demo_total_is_next_baseline (failed result : Main.FetchResult)
    (now now2 : datetime) (choice2 : string) (history : gmap string Main.DayRecord) :
  Main.success failed = false ->
  Main.success result = true ->
  let h1 := (Main.collect_data failed "y" now history).2 in
  previous_date h1 (strftime_ymd now2) (strftime_ymd now) ->
  Main.is_demo <$> h1 !! strftime_ymd now = Some (Some true) /\
  Main.daily_increment <$>
    (Main.collect_data result choice2 now2 h1).2 !! strftime_ymd now2 =
    Some (Some (Main.fr_total_submission result - 9123456)).
Proof.
  intros Hfail Hok h1 Hprev.
  assert (Hh1 : exists r, h1 !! strftime_ymd now = Some r /\
                          Main.total_submission r = 9123456 /\
                          Main.is_demo r = Some true).
  { subst h1. unfold Main.collect_data. rewrite Hfail.
    rewrite decide_True by reflexivity. unfold Main.use_demo_data. cbn [snd].
    set (r := {| Main.total_submission := 9123456; Main.daily_increment := None |}).
    set (m := <[strftime_ymd now := r]> history).
    unfold Main.calculate_increment.
    destruct (2 <=? _)%nat; [|exists r; split; [apply lookup_insert_eq|done]].
    destruct (0 <? _)%nat; [|exists r; split; [apply lookup_insert_eq|done]].
    eexists. split; [rewrite lookup_alter_eq; subst m; by rewrite lookup_insert_eq|].
    done. }
  destruct Hh1 as (r & Hr & Htot & Hdemo). split; [by rewrite Hr, <- Hdemo|].
  destruct (collect_data_lookup result choice2 now2 h1 Hok) as (_ & _ & _ & Hinc & _).
  rewrite (Hinc _ r Hprev Hr). by rewrite Htot.
Qed.

Lemma demo_total_is_next_baseline_witness :
  let failed := {| Main.success := false; Main.fr_total_submission := 0;
                   Main.fr_total_accepted := 0; Main.fr_ac_rate := 0%Q;
                   Main.fr_likes := None; Main.fr_dislikes := None |} in
  let h1 := (Main.collect_data failed "y" (Examples.january 9) ∅).2 in
  Main.is_demo <$> h1 !! strftime_ymd (Examples.january 9) = Some (Some true) /\
  Main.daily_increment <$>
    (Main.collect_data Examples.fetched_today "" (Examples.january 12) h1).2
      !! strftime_ymd (Examples.january 12) =
    Some (Some (Main.fr_total_submission Examples.fetched_today - 9123456)).
Proof.
  apply (demo_total_is_next_baseline
           {| Main.success := false; Main.fr_total_submission := 0;
              Main.fr_total_accepted := 0; Main.fr_ac_rate := 0%Q;
              Main.fr_likes := None; Main.fr_dislikes := None |}
           Examples.fetched_today (Examples.january 9) (Examples.january 12) "" ∅).
  - reflexivity.
  - reflexivity.
  - unfold previous_date.
    change ((Main.collect_data _ "y" (Examples.january 9) ∅).2)
      with (Main.calculate_increment "2024-01-09"
              (<["2024-01-09"%string :=
                   {| Main.total_submission := 9123456;
                      Main.total_accepted := 3456789;
                      Main.ac_rate := (3456789 # 9123456)%Q;
                      Main.likes := 45678; Main.dislikes := 1345;
                      Main.collection_time := Some "00:00:00"%string;
                      Main.is_demo := Some true;
                      Main.daily_increment := None |}]> ∅)).
    assert (Hkeys : forall d, is_Some
              (Main.calculate_increment "2024-01-09"
                 (<["2024-01-09"%string :=
                      {| Main.total_submission := 9123456;
                         Main.total_accepted := 3456789;
                         Main.ac_rate := (3456789 # 9123456)%Q;
                         Main.likes := 45678; Main.dislikes := 1345;
                         Main.collection_time := Some "00:00:00"%string;
                         Main.is_demo := Some true;
                         Main.daily_increment := None |}]> ∅) !! d) <->
              d = "2024-01-09"%string).
    { intros d. rewrite <- elem_of_sorted_keys. vm_compute Py.sorted.
      rewrite elem_of_cons, elem_of_nil. tauto. }
    split; [by apply Hkeys|]. split; [by vm_compute|]. split; [discriminate|].
    intros d' Hd' _ _. apply Hkeys in Hd' as ->. by vm_compute.
Defined.

End History.

(* ===================================================================== *)
(** * The bars of the daily increments *)
(* ===================================================================== *)

Section Bars.

Import Datetime Spec.
Local Open Scope Z_scope.

Lemma plotted_increments_nonneg (dates : list string) (totals : list Z) :
  Forall (fun b => 0 <= b.2) (Main.plotted_increments dates totals).
Proof.
  unfold Main.plotted_increments. apply Forall_forall. intros b Hb.
  apply list_elem_of_omap in Hb as (i & _ & Hi).
  destruct (Z.leb_spec 0 (nth i totals 0 - nth (i - 1) totals 0)); [|discriminate].
  by injection Hi as <-.
Qed.

Lemma length_omap_le {A B} (f : A -> option B) (l : list A) :
  (length (omap f l) <= length l)%nat.
Proof.
  induction l as [|x l IH]; [reflexivity|]. cbn.
  destruct (f x); cbn; lia.
Qed.

Lemma length_plotted_increments (dates : list string) (totals : list Z) :
  (length (Main.plotted_increments dates totals) <= length dates - 1)%nat.
Proof.
  unfold Main.plotted_increments.
  etransitivity; [apply length_omap_le|]. unfold Py.range. by rewrite length_seq.
Qed.

(** A list of integers has a least element, which the floor of the mean
    is not below. *)
Lemma least_below_mean (l : list Z) :
  l <> [] ->
  exists m, m ∈ l /\ m <= foldr Z.add 0 l / Z.of_nat (length l).
Proof.
  intros Hl.
  assert (Hmin : exists m, m ∈ l /\ Forall (fun y => m <= y) l).
  { induction l as [|x l IH]; [done|]. destruct l as [|y l].
    - exists x. split; [by apply elem_of_cons; left | by repeat constructor].
    - destruct IH as (m & Hm & Hall); [done|].
      destruct (Z.le_gt_cases x m).
      + exists x. split; [by apply elem_of_cons; left|].
        constructor; [lia|]. eapply Forall_impl; [exact Hall|]. cbn. lia.
      + exists m. split; [by apply elem_of_cons; right|]. constructor; [lia|done]. }
  destruct Hmin as (m & Hm & Hall). exists m. split; [exact Hm|].
  apply Z.div_le_lower_bound; [destruct l; [done|cbn; lia]|].
  clear Hm Hl. induction Hall as [|y l Hy _ IH]; [cbn; lia|].
  cbn [foldr length]. lia.
Qed.

(** X21. The bars of the daily increments: a day whose total fell has no bar,
    so that every bar is of an increment that is not negative, and there
    are fewer bars than recorded dates; among the bars at least one is
    green, the one of the least increment, however the increments
    spread. *)
Theorem increment_bars_one_green (history : gmap string Main.DayRecord) :
  let bars := Main.increment_bars history in
  Forall (fun b => 0 <= b.1.2) bars /\
  (length bars <= size history - 1)%nat /\
  (bars <> [] -> exists b, b ∈ bars /\ b.2 = "green"%string).
Proof.
  cbv zeta. unfold Main.increment_bars.
  set (dates := Py.sorted (map_to_list history).*1).
  set (totals := (fun d => Main.total_submission (history !!! d)) <$> dates).
  assert (Hlen : length dates = size history).
  { subst dates. rewrite length_sorted. by rewrite length_fmap, length_map_to_list. }
  destruct (2 <=? length dates)%nat;
    [|split; [constructor|split; [cbn; lia|done]]].
  pose proof (plotted_increments_nonneg dates totals) as Hnn.
  pose proof (length_plotted_increments dates totals) as Hle.
  destruct (Main.plotted_increments dates totals) as [|b0 bars] eqn:Hbars;
    [split; [constructor|split; [cbn; lia|done]]|].
  set (l := b0 :: bars) in *. split; [|split].
  - apply Forall_fmap. eapply Forall_impl; [exact Hnn|]. by intros [d i].
  - rewrite length_fmap. lia.
  - intros _. destruct (least_below_mean (l.*2)) as (m & Hm & Havg); [done|].
    apply list_elem_of_fmap in Hm as (b & -> & Hb).
    exists (b.1, b.2, Main.bar_color (foldr Z.add 0 l.*2 / Z.of_nat (length l.*2)) b.2).
    split.
    { apply list_elem_of_fmap. exists b. split; [reflexivity | exact Hb]. }
    cbn [snd]. set (avg := foldr Z.add 0 l.*2 / Z.of_nat (length l.*2)) in *.
    assert (H0 : 0 <= b.2) by exact (proj1 (Forall_forall _ _) Hnn b Hb).
    assert (Hq : (inject_Z b.2 <= inject_Z avg)%Q) by by rewrite <- Zle_Qle.
    assert (Hq0 : (0 <= inject_Z b.2)%Q) by (by change 0%Q with (inject_Z 0); rewrite <- Zle_Qle).
    unfold Main.bar_color.
    rewrite (proj2 (Qltb_ge (inject_Z avg * (3 # 2)) (inject_Z b.2))) by lra.
    rewrite (proj2 (Qltb_ge (inject_Z avg * (6 # 5)) (inject_Z b.2))) by lra.
    reflexivity.
Qed.

End Bars.
